(** * The extension endpoint gateway: a shallow embedding of
      [extension_endpoint/views.py] and [extension_endpoint/validators.py]

    The views are embedded as computations in a state-and-exception monad
    over a [World] that holds what the Python code reaches through module
    globals: the Django cache, the wall clock, the outbound HTTP calls that
    [requests.get] performs, the calls made to the Gemini client and the
    [time.sleep] pauses.  Everything the views import from outside the
    package (Google's endpoints, the ORM lookup, prompt builders, the JSON
    parsers, the Gemini client, Django settings) is gathered in a record
    [Env] over which every theorem is universally quantified. *)

From Stdlib Require Import Ascii String.
From stdpp Require Import gmap strings list fin_maps pretty.

Set Warnings "-register-all".
Open Scope string_scope.
Open Scope Z_scope.

(** ** Python strings *)

Module PyStr.

(** [s[n:]] *)
Fixpoint slice_from (n : nat) (s : string) : string :=
  match n, s with
  | O, _ => s
  | S n', String _ s' => slice_from n' s'
  | S _, EmptyString => EmptyString
  end.

(** [s[:n]] *)
Fixpoint slice_to (n : nat) (s : string) : string :=
  match n, s with
  | S n', String c s' => String c (slice_to n' s')
  | _, _ => EmptyString
  end.

(** [len(s)] *)
Definition len (s : string) : Z := Z.of_nat (String.length s).

(** [s.startswith(p)] *)
Definition startswith (s p : string) : bool := String.prefix p s.

(** [sub in s] for two strings: [sub] occurs in [s] at some offset. *)
Fixpoint str_in (sub s : string) : bool :=
  String.prefix sub s ||
  match s with
  | EmptyString => false
  | String _ s' => str_in sub s'
  end.

(** [s.split(c, 1)] when [c in s]: the text before the first [c] and
    everything after it.  When [c] does not occur the whole string is the
    first component (Python returns a one-element list there; the only
    caller tests [c in s] first). *)
Fixpoint split_once (c : ascii) (s : string) : string * string :=
  match s with
  | EmptyString => (EmptyString, EmptyString)
  | String c' s' =>
      if bool_decide (c' = c) then (EmptyString, s')
      else let '(a, b) := split_once c s' in (String c' a, b)
  end.

(** Characters that [str.strip()] removes (the ASCII part of
    [str.isspace]): TAB..CR, FS..US and the space. *)
Definition isspace (c : ascii) : bool :=
  let n := nat_of_ascii c in
  ((9 <=? n)%nat && (n <=? 13)%nat) || ((28 <=? n)%nat && (n <=? 32)%nat).

Fixpoint lstrip (s : string) : string :=
  match s with
  | String c s' => if isspace c then lstrip s' else s
  | EmptyString => EmptyString
  end.

(** [s.rstrip()], by a right fold: a trailing run of spaces is dropped. *)
Fixpoint rstrip (s : string) : string :=
  match s with
  | EmptyString => EmptyString
  | String c s' =>
      match rstrip s' with
      | EmptyString => if isspace c then EmptyString else String c EmptyString
      | r => String c r
      end
  end.

(** [s.strip()] *)
Definition strip (s : string) : string := rstrip (lstrip s).

(** [sep.join(l)] *)
Fixpoint join (sep : string) (l : list string) : string :=
  match l with
  | [] => ""
  | [x] => x
  | x :: rest => x +:+ sep +:+ join sep rest
  end.

(** [any(code in s for code in codes)] *)
Definition any_in (codes : list string) (s : string) : bool :=
  existsb (fun code => str_in code s) codes.

End PyStr.

(** ** Exceptions and the monad of the views *)

(** The exception classes the views tell apart.  [JSONDecodeError] is a
    subclass of [ValueError]; everything is a subclass of [Exception]. *)
Inductive exn_class :=
  | ExceptionC | ValueErrorC | JSONDecodeErrorC | IndexErrorC
  | KeyErrorC | TypeErrorC | AttributeErrorC | TimeoutC.

(** An exception object: its class and [str(e)]. *)
Record exn := Exn { exn_cls : exn_class; exn_str : string }.

Definition is_ValueError (e : exn) : bool :=
  match exn_cls e with
  | ValueErrorC | JSONDecodeErrorC => true
  | _ => false
  end.

Definition is_JSONDecodeError (e : exn) : bool :=
  match exn_cls e with
  | JSONDecodeErrorC => true
  | _ => false
  end.

Inductive outcome (A : Type) :=
  | Ret (a : A)
  | Raise (e : exn).
Arguments Ret {A} a.
Arguments Raise {A} e.

(** The two outbound calls of [verify_google_token], with the token sent. *)
Inductive NetCall :=
  | UserinfoCall (token : string)
  | TokeninfoCall (token : string).

(** ** The world *)

(** [cache] is Django's cache: every key holds a value and the instant at
    which it expires.  [now] is the wall clock in seconds.  The three logs
    record the effects the claims speak of. *)
Record World := mkWorld {
  cache : gmap string (Z * Z);
  now : Z;
  net_log : list NetCall;
  gemini_calls : nat;
  slept : list Z
}.

Definition set_cache (c : gmap string (Z * Z)) (w : World) : World :=
  mkWorld c (now w) (net_log w) (gemini_calls w) (slept w).

Definition at_time (t : Z) (w : World) : World :=
  mkWorld (cache w) t (net_log w) (gemini_calls w) (slept w).

Definition log_net (c : NetCall) (w : World) : World :=
  mkWorld (cache w) (now w) (net_log w ++ [c]) (gemini_calls w) (slept w).

Definition count_gemini_call (w : World) : World :=
  mkWorld (cache w) (now w) (net_log w) (S (gemini_calls w)) (slept w).

Definition log_sleep (secs : Z) (w : World) : World :=
  mkWorld (cache w) (now w + secs) (net_log w) (gemini_calls w)
          (slept w ++ [secs]).

Definition M (A : Type) : Type := World -> outcome A * World.

#[export] Instance M_ret : MRet M := fun A a w => (Ret a, w).

#[export] Instance M_bind : MBind M := fun A B f m w =>
  match m w with
  | (Ret a, w') => f a w'
  | (Raise e, w') => (Raise e, w')
  end.

Definition raise {A} (e : exn) : M A := fun w => (Raise e, w).

(** [try: m  except Exception as e: h e] *)
Definition try_except {A} (m : M A) (h : exn -> M A) : M A := fun w =>
  match m w with
  | (Ret a, w') => (Ret a, w')
  | (Raise e, w') => h e w'
  end.

(** Lift a collaborator that has no effect on the world but may raise. *)
Definition lift {A} (o : outcome A) : M A := fun w => (o, w).

(** ** The Django cache *)

(** [cache.get(key, default)]: the stored value while it has not expired,
    the default once it has or when the key was never set. *)
Definition cache_get (key : string) (default : Z) : M Z := fun w =>
  match cache w !! key with
  | Some (v, expiry) =>
      if bool_decide (now w < expiry) then (Ret v, w) else (Ret default, w)
  | None => (Ret default, w)
  end.

(** [cache.set(key, value, timeout=t)]: stores the value and makes the key
    expire [t] seconds from now, whatever expiry it had before. *)
Definition cache_set (key : string) (value timeout : Z) : M unit := fun w =>
  (Ret tt, set_cache (<[key := (value, now w + timeout)]> (cache w)) w).

(** [time.sleep(secs)] *)
Definition time_sleep (secs : Z) : M unit := fun w => (Ret tt, log_sleep secs w).

(** ** Module constants of views.py *)

Definition DEFAULT_MODEL : string := "gemini-2.0-flash".

Definition ALLOWED_ORIGINS : list string :=
  [ "chrome-extension://lmmjfddkgnehcnhelddgmlmookgemeop";
    "https://messages.google.com";
    "https://www.messenger.com";
    "https://web.whatsapp.com" ].

Definition GOOGLE_CLIENT_ID : string :=
  "636710672879-jtimq18mggv3ev79itq5uq0f1tpdmf5d.apps.googleusercontent.com".

Definition RATE_LIMIT_REQUESTS_DEFAULT : Z := 5.
Definition RATE_LIMIT_REQUESTS_AMBIENT : Z := 10.
Definition RATE_LIMIT_WINDOW : Z := 86400.

(** ** check_rate_limit *)

Definition ratelimit_key (user_id : string) : string :=
  "ratelimit:extension:" +:+ user_id.

Definition rate_limit_of (is_ambient_user : bool) : Z :=
  if is_ambient_user then RATE_LIMIT_REQUESTS_AMBIENT
  else RATE_LIMIT_REQUESTS_DEFAULT.

Definition check_rate_limit (user_id : string) (is_ambient_user : bool)
  : M (bool * Z * Z) :=
  let cache_key := ratelimit_key user_id in
  let limit := rate_limit_of is_ambient_user in
  current_count ← cache_get cache_key 0;
  let remaining := limit - current_count in
  if bool_decide (current_count >= limit) then mret (false, 0, limit)
  else
    let new_count := current_count + 1 in
    _ ← cache_set cache_key new_count RATE_LIMIT_WINDOW;
    mret (true, remaining - 1, limit).

(** A subject calling [check_rate_limit] once at each of the instants [ts],
    in order; the answers are collected. *)
Fixpoint calls_at (user_id : string) (is_ambient_user : bool) (ts : list Z)
    (w : World) : list (outcome (bool * Z * Z)) * World :=
  match ts with
  | [] => ([], w)
  | t :: ts' =>
      let '(r, w1) := check_rate_limit user_id is_ambient_user (at_time t w) in
      let '(rs, w2) := calls_at user_id is_ambient_user ts' w1 in
      (r :: rs, w2)
  end.

(** The count [check_rate_limit] reads for a subject at instant [t]. *)
Definition count_at (user_id : string) (t : Z) (w : World) : outcome Z :=
  (cache_get (ratelimit_key user_id) 0 (at_time t w)).1.

(** The instant at which a subject's counter expires, if it is stored. *)
Definition expiry_of (user_id : string) (w : World) : option Z :=
  snd <$> cache w !! ratelimit_key user_id.

(** ** JSON values, requests and responses *)

(** What [json.loads] produces and [JsonResponse] serialises.  A float is
    kept as its literal: no view inspects one. *)
Inductive json :=
  | JNull
  | JBool (b : bool)
  | JInt (z : Z)
  | JFloat (literal : string)
  | JStr (s : string)
  | JList (l : list json)
  | JDict (d : gmap string json).

Definition json_of_option_str (o : option string) : json :=
  match o with
  | Some s => JStr s
  | None => JNull
  end.

(** [d[key]] *)
Definition py_getitem (d : json) (key : string) : outcome json :=
  match d with
  | JDict m =>
      match m !! key with
      | Some v => Ret v
      | None => Raise (Exn KeyErrorC ("'" +:+ key +:+ "'"))
      end
  | _ => Raise (Exn TypeErrorC "object is not subscriptable")
  end.

(** [len(x)] *)
Definition py_len (x : json) : outcome Z :=
  match x with
  | JList l => Ret (Z.of_nat (length l))
  | JStr s => Ret (PyStr.len s)
  | JDict m => Ret (Z.of_nat (size m))
  | _ => Raise (Exn TypeErrorC "object has no len()")
  end.

(** [x.strip()] *)
Definition py_strip (x : json) : outcome string :=
  match x with
  | JStr s => Ret (PyStr.strip s)
  | _ => Raise (Exn AttributeErrorC "object has no attribute 'strip'")
  end.

(** A Django request: the parts the views read, and the two attributes
    [require_google_auth] attaches ([None] while they are not set). *)
Record HttpRequest := mkRequest {
  req_method : string;
  req_headers : gmap string string;
  req_body : string;
  req_google_user_id : option string;
  req_is_ambient_user : option bool
}.

(** [request.headers.get(name, '')] *)
Definition header_get (request : HttpRequest) (name : string) : string :=
  default "" (req_headers request !! name).

(** [request.is_ambient_user] *)
Definition get_is_ambient_user (request : HttpRequest) : outcome bool :=
  match req_is_ambient_user request with
  | Some b => Ret b
  | None =>
      Raise (Exn AttributeErrorC
               "'WSGIRequest' object has no attribute 'is_ambient_user'")
  end.

Definition attach_user (user_id : string) (is_ambient : bool)
    (request : HttpRequest) : HttpRequest :=
  mkRequest (req_method request) (req_headers request) (req_body request)
            (Some user_id) (Some is_ambient).

(** A Django response: status, body ([None] for an empty body, otherwise the
    JSON document of a [JsonResponse]) and headers. *)
Record HttpResponse := mkResponse {
  status_code : Z;
  content : option json;
  resp_headers : gmap string string
}.

(** [JsonResponse(data, status=status)] *)
Definition JsonResponse (data : list (string * json)) (status : Z)
  : HttpResponse :=
  mkResponse status (Some (JDict (list_to_map data)))
             {[ "Content-Type" := "application/json" ]}.

(** [HttpResponse()] *)
Definition EmptyResponse : HttpResponse :=
  mkResponse 200 None {[ "Content-Type" := "text/html; charset=utf-8" ]}.

(** [HttpResponseNotAllowed(permitted_methods)] *)
Definition HttpResponseNotAllowed (permitted : list string) : HttpResponse :=
  mkResponse 405 None
    (<[ "Allow" := PyStr.join ", " permitted ]>
       {[ "Content-Type" := "text/html; charset=utf-8" ]}).

(** [response[name] = value] *)
Definition set_header (name value : string) (r : HttpResponse) : HttpResponse :=
  mkResponse (status_code r) (content r) (<[name := value]> (resp_headers r)).

(** The top-level field [name] of a JSON response body. *)
Definition body_field (r : HttpResponse) (name : string) : option json :=
  match content r with
  | Some (JDict m) => m !! name
  | _ => None
  end.

Definition View : Type := HttpRequest -> M HttpResponse.

(** ** What the views import *)

(** The answer of [requests.get]: a status code and what [.json()] gives.
    The JSON objects of Google's two endpoints are read at the keys ['sub'],
    ['email'] and ['aud'] only, as strings. *)
Record NetResponse := mkNetResponse {
  net_status : Z;
  net_json : outcome (gmap string string)
}.

Record Env := mkEnv {
  (** [requests.get(url, ..., timeout=5)]: an answer, or [requests.Timeout]
      or another exception. *)
  requests_get : NetCall -> outcome NetResponse;
  (** [CustomUser.objects.filter(email__iexact=email).exists()] *)
  CustomUser_email_exists : string -> outcome bool;
  (** [json.loads(request.body)] *)
  json_loads : string -> outcome json;
  (** [getattr(settings, 'DEFAULT_API_KEY', None)] *)
  settings_DEFAULT_API_KEY : option string;
  get_text_event_extraction_instructions : string -> outcome string;
  format_conversation_for_event_extraction : json -> outcome string;
  generate_event_match_instructions : json -> json -> outcome string;
  (** [client.models.generate_content(model=, contents=, config=).text] for
      the client built from an API key; the first argument counts the calls
      made before this one, so that a stub may answer each attempt
      differently. *)
  generate_content :
    nat -> string -> string -> string -> gmap string string ->
    outcome (option string);
  (** [sanitize_and_parse_json(text, can_log=False)] *)
  sanitize_and_parse_json : option string -> outcome json
}.

(** ** validators.py *)

Module Validators.

Definition is_dict (x : json) : bool :=
  match x with JDict _ => true | _ => false end.
Definition is_str (x : json) : bool :=
  match x with JStr _ => true | _ => false end.
Definition is_list (x : json) : bool :=
  match x with JList _ => true | _ => false end.

(** [key in data] and [data.get(key)] for a dict. *)
Definition has_key (m : gmap string json) (key : string) : bool :=
  bool_decide (is_Some (m !! key)).
Definition dict_get (m : gmap string json) (key : string) : json :=
  default JNull (m !! key).

Definition Verdict : Type := bool * option string.
Definition invalid (msg : string) : Verdict := (false, Some msg).
Definition valid : Verdict := (true, None).

(** The loop over [enumerate(data['structured_messages'])]. *)
Fixpoint validate_messages (idx : nat) (messages : list json) : Verdict :=
  match messages with
  | [] => valid
  | message :: rest =>
      let i := pretty idx in
      match message with
      | JDict m =>
          if negb (has_key m "date") then
            invalid ("Message at index " +:+ i +:+ " missing required field: date")
          else if negb (has_key m "sender") then
            invalid ("Message at index " +:+ i +:+ " missing required field: sender")
          else if negb (has_key m "text") then
            invalid ("Message at index " +:+ i +:+ " missing required field: text")
          else if negb (is_str (dict_get m "date")) then
            invalid ("Message at index " +:+ i +:+ ": 'date' must be a string")
          else if negb (is_str (dict_get m "sender")) then
            invalid ("Message at index " +:+ i +:+ ": 'sender' must be a string")
          else if negb (is_str (dict_get m "text")) then
            invalid ("Message at index " +:+ i +:+ ": 'text' must be a string")
          else validate_messages (S idx) rest
      | _ => invalid ("Message at index " +:+ i +:+ " must be an object")
      end
  end.

(** The loop over [enumerate(data['participants'])]. *)
Fixpoint validate_participants (idx : nat) (ps : list json) : Verdict :=
  match ps with
  | [] => valid
  | p :: rest =>
      if negb (is_str p) then
        invalid ("Participant at index " +:+ pretty idx +:+ " must be a string")
      else validate_participants (S idx) rest
  end.

Definition validate_conversation (data : json) : Verdict :=
  match data with
  | JDict m =>
      if negb (has_key m "title") then
        invalid "Missing required field: title"
      else if negb (is_str (dict_get m "title")) then
        invalid "Field 'title' must be a string"
      else if negb (has_key m "structured_messages") then
        invalid "Missing required field: structured_messages"
      else
        match dict_get m "structured_messages" with
        | JList messages =>
            match validate_messages 0 messages with
            | (false, err) => (false, err)
            | (true, _) =>
                match m !! "participants" with
                | Some (JList ps) => validate_participants 0 ps
                | Some _ => invalid "Field 'participants' must be an array"
                | None => valid
                end
            end
        | _ => invalid "Field 'structured_messages' must be an array"
        end
  | _ => invalid "Conversation must be a JSON object"
  end.

Definition valid_event_types : list string :=
  [ "full_potential_event_details"; "incomplete_event_details";
    "not_a_desired_event"; "not_an_event" ].

(** [data.get('event_type') not in valid_event_types]: only a string can
    equal one of the four. *)
Definition event_type_ok (x : json) : bool :=
  match x with
  | JStr s => bool_decide (s ∈ valid_event_types)
  | _ => false
  end.

(** The loop [for field in ['start', 'end']] shared by the two event
    validators. *)
Fixpoint validate_date_fields (m : gmap string json) (fields : list string)
  : Verdict :=
  match fields with
  | [] => valid
  | field :: rest =>
      match m !! field with
      | None | Some JNull | Some (JDict _) => validate_date_fields m rest
      | Some _ => invalid ("Field '" +:+ field +:+ "' must be an object")
      end
  end.

Definition validate_extracted_event (data : json) : Verdict :=
  match data with
  | JDict m =>
      if negb (has_key m "event_type") then
        invalid "Missing required field: event_type"
      else if negb (event_type_ok (dict_get m "event_type")) then
        invalid ("Invalid event_type. Must be one of: "
                 +:+ PyStr.join ", " valid_event_types)
      else if negb (has_key m "summary") then
        invalid "Missing required field: summary"
      else validate_date_fields m ["start"; "end"]
  | _ => invalid "Event must be a JSON object"
  end.

Definition validate_calendar_event (data : json) : Verdict :=
  match data with
  | JDict m => validate_date_fields m ["start"; "end"]
  | _ => invalid "Calendar event must be a JSON object"
  end.

(** [f"... {error}"]: formatting [None] prints the word None. *)
Definition fmt_error (error : option string) : string :=
  default "None" error.

(** The loop over [enumerate(data['calendar_events'])]. *)
Fixpoint validate_calendar_events (idx : nat) (events : list json) : Verdict :=
  match events with
  | [] => valid
  | cal_event :: rest =>
      match validate_calendar_event cal_event with
      | (false, error) =>
          invalid ("Invalid calendar_event at index " +:+ pretty idx +:+ ": "
                   +:+ fmt_error error)
      | (true, _) => validate_calendar_events (S idx) rest
      end
  end.

Definition validate_match_request (data : json) : Verdict :=
  match data with
  | JDict m =>
      if negb (has_key m "event") then
        invalid "Missing required field: event"
      else if negb (has_key m "calendar_events") then
        invalid "Missing required field: calendar_events"
      else
        match dict_get m "calendar_events" with
        | JList events =>
            match validate_extracted_event (dict_get m "event") with
            | (false, error) => invalid ("Invalid event: " +:+ fmt_error error)
            | (true, _) => validate_calendar_events 0 events
            end
        | _ => invalid "Field 'calendar_events' must be an array"
        end
  | _ => invalid "Request must be a JSON object"
  end.

Definition validate_extract_request (data : json) : Verdict :=
  match data with
  | JDict m =>
      if negb (has_key m "conversation") then
        invalid "Missing required field: conversation"
      else if negb (has_key m "user_name") then
        invalid "Missing required field: user_name"
      else
        match dict_get m "user_name" with
        | JStr user_name =>
            if bool_decide (PyStr.strip user_name = "") then
              invalid "Field 'user_name' cannot be empty"
            else
              match validate_conversation (dict_get m "conversation") with
              | (false, error) =>
                  invalid ("Invalid conversation: " +:+ fmt_error error)
              | (true, _) => valid
              end
        | _ => invalid "Field 'user_name' must be a string"
        end
  | _ => invalid "Request must be a JSON object"
  end.

(** A verdict that, when it refuses, says why. *)
Definition explained (v : Verdict) : Prop :=
  v.1 = false -> exists msg, v.2 = Some msg.

End Validators.

(** ** views.py *)

Section Views.

Context (E : Env).

(** [requests.get(...)]: the call is recorded, then answered by [E]. *)
Definition http_get (c : NetCall) : M NetResponse := fun w =>
  (requests_get E c, log_net c w).

Definition verify_google_token (token : string)
  : M (option (gmap string string)) :=
  try_except
    (userinfo_response ← http_get (UserinfoCall token);
     if bool_decide (net_status userinfo_response ≠ 200) then mret None
     else
       userinfo ← lift (net_json userinfo_response);
       if bool_decide (userinfo !! "sub" = None) then mret None
       else
         tokeninfo_response ← http_get (TokeninfoCall token);
         if bool_decide (net_status tokeninfo_response ≠ 200) then mret None
         else
           tokeninfo ← lift (net_json tokeninfo_response);
           if bool_decide (tokeninfo !! "aud" ≠ Some GOOGLE_CLIENT_ID)
           then mret None
           else mret (Some userinfo))
    (fun _ => mret None).

Definition check_ambient_profile (email : string) : M bool :=
  if bool_decide (email = "") then mret false
  else try_except (lift (CustomUser_email_exists E email))
                  (fun _ => mret false).

(** The body of the three 401 answers of [require_google_auth]. *)
Definition auth_error (msg : string) : HttpResponse :=
  JsonResponse [ ("success", JBool false); ("error", JStr msg);
                 ("events", JNull); ("match_result", JNull) ] 401.

Definition bool_header (b : bool) : string := if b then "true" else "false".

(** [not userinfo]: [None] or an empty dict. *)
Definition falsy_userinfo (u : option (gmap string string)) : bool :=
  match u with
  | None => true
  | Some m => bool_decide (m = ∅)
  end.

(** The 429 answer of [require_google_auth], with its four headers. *)
Definition rate_limited_response (is_ambient_user : bool) (limit : Z)
  : HttpResponse :=
  let response :=
    JsonResponse [ ("success", JBool false);
                   ("error", JStr "Rate limit exceeded. Please try again later.");
                   ("events", JNull); ("match_result", JNull);
                   ("is_ambient_user", JBool is_ambient_user) ] 429 in
  let response := set_header "X-RateLimit-Remaining" "0" response in
  let response :=
    set_header "X-RateLimit-Reset" (pretty RATE_LIMIT_WINDOW) response in
  let response := set_header "X-RateLimit-Limit" (pretty limit) response in
  set_header "X-Ambient-User" (bool_header is_ambient_user) response.

(** The three headers [require_google_auth] adds to the view's answer. *)
Definition with_rate_headers (is_ambient_user : bool) (remaining limit : Z)
    (response : HttpResponse) : HttpResponse :=
  let response :=
    set_header "X-RateLimit-Remaining" (pretty remaining) response in
  let response := set_header "X-RateLimit-Limit" (pretty limit) response in
  set_header "X-Ambient-User" (bool_header is_ambient_user) response.

Definition require_google_auth (view_func : View) : View := fun request =>
  if bool_decide (req_method request = "OPTIONS") then view_func request
  else
    let auth_header := header_get request "Authorization" in
    if negb (PyStr.startswith auth_header "Bearer ") then
      mret (auth_error "Missing or invalid Authorization header")
    else
      let token := PyStr.slice_from 7 auth_header in
      if bool_decide (token = "") || bool_decide (PyStr.len token < 20) then
        mret (auth_error "Invalid token format")
      else
        userinfo ← verify_google_token token;
        if falsy_userinfo userinfo then
          mret (auth_error
            "Invalid or expired Google token. Please reconnect your calendar.")
        else
          let info := default ∅ userinfo in
          user_id ← lift (match info !! "sub" with
                          | Some s => Ret s
                          | None => Raise (Exn KeyErrorC "'sub'")
                          end);
          let user_email := default "" (info !! "email") in
          is_ambient_user ← check_ambient_profile user_email;
          '(allowed, remaining, limit) ← check_rate_limit user_id is_ambient_user;
          if negb allowed then
            mret (rate_limited_response is_ambient_user limit)
          else
            let request := attach_user user_id is_ambient_user request in
            response ← view_func request;
            mret (with_rate_headers is_ambient_user remaining limit response).

Definition get_cors_origin (request : HttpRequest) : option string :=
  let origin := header_get request "Origin" in
  if bool_decide (origin ∈ ALLOWED_ORIGINS) then Some origin else None.

(** [if origin:] holds for a string that is not empty. *)
Definition add_cors_headers (response : HttpResponse) (origin : option string)
  : HttpResponse :=
  match origin with
  | Some o =>
      if bool_decide (o = "") then response
      else
        let response := set_header "Access-Control-Allow-Origin" o response in
        let response :=
          set_header "Access-Control-Allow-Methods" "GET, POST, OPTIONS" response in
        let response :=
          set_header "Access-Control-Allow-Headers"
                     "Content-Type, Authorization" response in
        set_header "Access-Control-Expose-Headers"
          "X-RateLimit-Remaining, X-RateLimit-Reset, X-RateLimit-Limit, X-Ambient-User"
          response
  | None => response
  end.

Definition cors_exempt (view_func : View) : View := fun request =>
  let origin := get_cors_origin request in
  if bool_decide (req_method request = "OPTIONS") then
    mret (add_cors_headers EmptyResponse origin)
  else
    response ← view_func request;
    mret (add_cors_headers response origin).

(** [django.views.decorators.csrf.csrf_exempt] only marks the view. *)
Definition csrf_exempt (view_func : View) : View := view_func.

(** [django.views.decorators.http.require_http_methods] *)
Definition require_http_methods (permitted : list string) (view_func : View)
  : View := fun request =>
  if bool_decide (req_method request ∈ permitted) then view_func request
  else mret (HttpResponseNotAllowed permitted).

Definition get_api_key : M string :=
  match settings_DEFAULT_API_KEY E with
  | Some api_key =>
      if bool_decide (api_key = "") then
        raise (Exn ValueErrorC "DEFAULT_API_KEY not configured in settings")
      else mret api_key
  | None => raise (Exn ValueErrorC "DEFAULT_API_KEY not configured in settings")
  end.

(** [client.models.generate_content(...)] followed by [response.text]. *)
Definition call_generate (client model_name prompt : string)
    (config : gmap string string) : M (option string) := fun w =>
  (generate_content E (gemini_calls w) client model_name prompt config,
   count_gemini_call w).

Definition transient_codes : list string :=
  ["500"; "503"; "UNAVAILABLE"; "INTERNAL"].

(** The [for attempt in range(max_retries)] loop, over the attempts that
    remain; falling off its end reaches the final [raise]. *)
Fixpoint retry_loop (client model_name prompt : string)
    (config : gmap string string) (max_retries : Z) (attempts : list Z)
  : M (option string) :=
  match attempts with
  | [] => raise (Exn ExceptionC "Gemini API error: max retries exceeded")
  | attempt :: rest =>
      let continue := retry_loop client model_name prompt config max_retries rest in
      r ← try_except
            (text ← call_generate client model_name prompt config;
             match text with
             | Some t =>
                 if negb (bool_decide (t = "")) &&
                    PyStr.str_in "Error processing request: 500 INTERNAL." t
                 then _ ← time_sleep (attempt + 1); mret None
                 else if negb (bool_decide (t = "")) &&
                         PyStr.str_in "503 UNAVAILABLE." t
                 then _ ← time_sleep (attempt + 1); mret None
                 else mret (Some text)
             | None => mret (Some text)
             end)
            (fun e =>
               let error_msg := exn_str e in
               if PyStr.any_in transient_codes error_msg then
                 _ ← time_sleep (attempt + 1);
                 if bool_decide (attempt = max_retries - 1) then
                   raise (Exn ExceptionC
                            ("Gemini API error after " +:+ pretty max_retries
                             +:+ " attempts: " +:+ error_msg))
                 else mret None
               else raise e);
      match r with
      | Some text => mret text
      | None => continue
      end
  end.

(** [range(n)] *)
Definition py_range (n : Z) : list Z := Z.of_nat <$> seq 0 (Z.to_nat n).

Definition call_gemini_with_retry (client model_name prompt : string)
    (config : gmap string string) (max_retries : Z) : M (option string) :=
  retry_loop client model_name prompt config max_retries (py_range max_retries).

(** [try: m  except cls as e: h e], for the handlers that name a class. *)
Definition try_except_if {A} (cls : exn -> bool) (m : M A) (h : exn -> M A)
  : M A :=
  try_except m (fun e => if cls e then h e else raise e).

Definition json_config : gmap string string :=
  {[ "response_mime_type" := "application/json" ]}.

(** The two handlers that close [extract_event] and [find_matches]:
    [except ValueError] first, then [except Exception]. *)
Definition view_handlers (data_field : string) (e : exn) : M HttpResponse :=
  if is_ValueError e then
    mret (JsonResponse [ ("success", JBool false); (data_field, JNull);
                         ("error", JStr (exn_str e)) ] 500)
  else
    mret (JsonResponse [ ("success", JBool false); (data_field, JNull);
                         ("error", JStr ("Internal error: " +:+ exn_str e)) ] 500).

(** [json.loads(request.body)] under its own [except json.JSONDecodeError],
    which answers 400 at once. *)
Definition parse_body (data_field : string) (request : HttpRequest)
  : M (HttpResponse + json) :=
  try_except_if is_JSONDecodeError
    (data ← lift (json_loads E (req_body request)); mret (inr data))
    (fun e =>
       mret (inl (JsonResponse
                    [ ("success", JBool false); (data_field, JNull);
                      ("error", JStr ("Invalid JSON: " +:+ exn_str e)) ] 400))).

(** [sanitize_and_parse_json(response_text, can_log=False)] under its own
    [except Exception], which answers 500 at once. *)
Definition parse_ai_response (data_field : string)
    (response_text : option string) : M (HttpResponse + json) :=
  try_except
    (parsed ← lift (sanitize_and_parse_json E response_text); mret (inr parsed))
    (fun e =>
       mret (inl (JsonResponse
                    [ ("success", JBool false); (data_field, JNull);
                      ("error", JStr ("Failed to parse AI response: "
                                      +:+ exn_str e)) ] 500))).

(** The function under the decorators of [extract_event]. *)
Definition extract_event_body : View := fun request =>
  try_except
    (parsed ← parse_body "events" request;
     match parsed with
     | inl response => mret response
     | inr data =>
         let '(is_valid, error) := Validators.validate_extract_request data in
         if negb is_valid then
           mret (JsonResponse [ ("success", JBool false); ("events", JNull);
                                ("error", json_of_option_str error) ] 400)
         else
           conversation ← lift (py_getitem data "conversation");
           raw_name ← lift (py_getitem data "user_name");
           user_name ← lift (py_strip raw_name);
           instructions ←
             lift (get_text_event_extraction_instructions E user_name);
           formatted_input ←
             lift (format_conversation_for_event_extraction E conversation);
           let prompt := instructions +:+ formatted_input in
           api_key ← get_api_key;
           let client := api_key in
           response_text ←
             call_gemini_with_retry client DEFAULT_MODEL prompt json_config 3;
           parsed_events ← parse_ai_response "events" response_text;
           match parsed_events with
           | inl response => mret response
           | inr parsed_events =>
               let parsed_events :=
                 match parsed_events with
                 | JDict _ => JList [parsed_events]
                 | _ => parsed_events
                 end in
               is_ambient ← lift (get_is_ambient_user request);
               mret (JsonResponse [ ("success", JBool true);
                                    ("events", parsed_events);
                                    ("error", JNull);
                                    ("is_ambient_user", JBool is_ambient) ] 200)
           end
     end)
    (view_handlers "events").

Definition no_match_result : json :=
  JDict (list_to_map
    [ ("match_data",
       JDict (list_to_map [ ("match_type", JStr "no_match");
                            ("matched_event", JNull);
                            ("matched_event_id", JNull) ])) ]).

(** The function under the decorators of [find_matches]. *)
Definition find_matches_body : View := fun request =>
  try_except
    (parsed ← parse_body "match_result" request;
     match parsed with
     | inl response => mret response
     | inr data =>
         let '(is_valid, error) := Validators.validate_match_request data in
         if negb is_valid then
           mret (JsonResponse [ ("success", JBool false);
                                ("match_result", JNull);
                                ("error", json_of_option_str error) ] 400)
         else
           event ← lift (py_getitem data "event");
           calendar_events ← lift (py_getitem data "calendar_events");
           n ← lift (py_len calendar_events);
           if bool_decide (n = 0) then
             is_ambient ← lift (get_is_ambient_user request);
             mret (JsonResponse [ ("success", JBool true);
                                  ("match_result", no_match_result);
                                  ("error", JNull);
                                  ("is_ambient_user", JBool is_ambient) ] 200)
           else
             prompt ←
               lift (generate_event_match_instructions E event calendar_events);
             api_key ← get_api_key;
             let client := api_key in
             response_text ←
               call_gemini_with_retry client DEFAULT_MODEL prompt json_config 3;
             match_result ← parse_ai_response "match_result" response_text;
             match match_result with
             | inl response => mret response
             | inr match_result =>
                 is_ambient ← lift (get_is_ambient_user request);
                 mret (JsonResponse [ ("success", JBool true);
                                      ("match_result", match_result);
                                      ("error", JNull);
                                      ("is_ambient_user", JBool is_ambient) ] 200)
             end
     end)
    (view_handlers "match_result").

(** [bool(getattr(settings, 'DEFAULT_API_KEY', None))] *)
Definition api_configured : bool :=
  match settings_DEFAULT_API_KEY E with
  | Some k => negb (bool_decide (k = ""))
  | None => false
  end.

Definition health_check_body : View := fun _ =>
  mret (JsonResponse [ ("status", JStr "ok");
                       ("api_configured", JBool api_configured) ] 200).

(** [s[0]] *)
Definition first_char (s : string) : outcome string :=
  match s with
  | String c _ => Ret (String c EmptyString)
  | EmptyString => Raise (Exn IndexErrorC "string index out of range")
  end.

(** The masking step of [check_profile]. *)
Definition mask_email (user_email : string) : outcome string :=
  if negb (bool_decide (user_email = "")) && PyStr.str_in "@" user_email then
    let '(local_part, domain) := PyStr.split_once "@" user_email in
    if bool_decide (PyStr.len local_part > 3) then
      Ret (PyStr.slice_to 3 local_part +:+ "***@" +:+ domain)
    else
      match first_char local_part with
      | Ret c => Ret (c +:+ "***@" +:+ domain)
      | Raise e => Raise e
      end
  else Ret "***".

(** The body of the three 401 answers of [check_profile]. *)
Definition profile_error (msg : string) : HttpResponse :=
  JsonResponse [ ("success", JBool false); ("is_ambient_user", JBool false);
                 ("email", JNull); ("error", JStr msg) ] 401.

(** The function under the decorators of [check_profile]. *)
Definition check_profile_body : View := fun request =>
  if bool_decide (req_method request = "OPTIONS") then mret EmptyResponse
  else
    let auth_header := header_get request "Authorization" in
    if negb (PyStr.startswith auth_header "Bearer ") then
      mret (profile_error "Missing or invalid Authorization header")
    else
      let token := PyStr.slice_from 7 auth_header in
      if bool_decide (token = "") || bool_decide (PyStr.len token < 20) then
        mret (profile_error "Invalid token format")
      else
        userinfo ← verify_google_token token;
        if falsy_userinfo userinfo then
          mret (profile_error
            "Invalid or expired Google token. Please reconnect your calendar.")
        else
          let user_email := default "" (default ∅ userinfo !! "email") in
          masked_email ← lift (mask_email user_email);
          is_ambient_user ← check_ambient_profile user_email;
          mret (JsonResponse [ ("success", JBool true);
                               ("is_ambient_user", JBool is_ambient_user);
                               ("email", JStr masked_email);
                               ("error", JNull) ] 200).

(** The four views as their modules export them, decorators applied from
    the innermost outwards. *)
Definition extract_event : View :=
  csrf_exempt (cors_exempt (require_google_auth
    (require_http_methods ["POST"; "OPTIONS"] extract_event_body))).

Definition find_matches : View :=
  csrf_exempt (cors_exempt (require_google_auth
    (require_http_methods ["POST"; "OPTIONS"] find_matches_body))).

Definition health_check : View :=
  csrf_exempt (cors_exempt
    (require_http_methods ["GET"; "OPTIONS"] health_check_body)).

Definition check_profile : View :=
  csrf_exempt (cors_exempt
    (require_http_methods ["GET"; "OPTIONS"] check_profile_body)).

(** urls.py, for the views that views.py defines. *)
Inductive Endpoint :=
  | ExtractEventUrl | FindMatchesUrl | HealthUrl | CheckProfileUrl.

Definition urlpatterns (ep : Endpoint) : View :=
  match ep with
  | ExtractEventUrl => extract_event
  | FindMatchesUrl => find_matches
  | HealthUrl => health_check
  | CheckProfileUrl => check_profile
  end.

End Views.

(** ** Statement-side definitions *)

(** What the rate-limiting rule promises to the [N]-th call of a window:
    allowed with [limit - N] left while [N <= limit], refused with nothing
    left afterwards. *)
Definition nth_call_answer (is_ambient_user : bool) (N : nat)
  : outcome (bool * Z * Z) :=
  let limit := rate_limit_of is_ambient_user in
  if bool_decide (Z.of_nat N <= limit) then Ret (true, limit - Z.of_nat N, limit)
  else Ret (false, 0, limit).

(** A world in which nothing has happened yet, at instant [0]. *)
Definition empty_world : World := mkWorld ∅ 0 [] 0 [].

(** The two in-band error texts that [call_gemini_with_retry] looks for in
    a returned text, and the test it makes on the text. *)
Definition inband_error (text : option string) : bool :=
  match text with
  | Some t =>
      negb (bool_decide (t = "")) &&
      (PyStr.str_in "Error processing request: 500 INTERNAL." t
       || PyStr.str_in "503 UNAVAILABLE." t)
  | None => false
  end.

(** An attempt that [call_gemini_with_retry] treats as transient: it raised
    with one of the transient codes in its message, or returned a text with
    an in-band error. *)
Definition transient_attempt (o : outcome (option string)) : bool :=
  match o with
  | Ret text => inband_error text
  | Raise e => PyStr.any_in transient_codes (exn_str e)
  end.

(** The error that ends [call_gemini_with_retry] when the attempts are used
    up, from the outcome of the last attempt ([None] when none was made). *)
Definition exhausted_error (max_retries : Z)
    (last : option (outcome (option string))) : exn :=
  match last with
  | Some (Raise e) =>
      Exn ExceptionC ("Gemini API error after " +:+ pretty max_retries
                      +:+ " attempts: " +:+ exn_str e)
  | _ => Exn ExceptionC "Gemini API error: max retries exceeded"
  end.

(** The pauses before attempts [a+1 .. a+m]: [attempt + 1] seconds each. *)
Definition backoff (a m : nat) : list Z :=
  (fun i => Z.of_nat i + 1) <$> seq a m.

(** What [m] transient attempts in a row, numbered from [a], leave behind:
    so many more calls made, the pauses logged, nothing else touched. *)
Definition after_attempts (a m : nat) (w : World) (w' : World) : Prop :=
  gemini_calls w' = (gemini_calls w + m)%nat
  /\ slept w' = (slept w ++ backoff a m)%list
  /\ cache w' = cache w
  /\ net_log w' = net_log w.

(** [returns m P]: whenever the computation [m] returns a value, whatever
    the world it started in, that value satisfies [P]. *)
Definition returns {A} (m : M A) (P : A -> Prop) : Prop :=
  forall w a w', m w = (Ret a, w') -> P a.

(** The four headers of [add_cors_headers]. *)
Definition CORS_HEADERS : list string :=
  [ "Access-Control-Allow-Origin"; "Access-Control-Allow-Methods";
    "Access-Control-Allow-Headers"; "Access-Control-Expose-Headers" ].

(** A response that carries none of them. *)
Definition cors_free (r : HttpResponse) : Prop :=
  forall name, name ∈ CORS_HEADERS -> resp_headers r !! name = None.

(** The data fields of each endpoint's envelope. *)
Definition data_fields (ep : Endpoint) : list string :=
  match ep with
  | ExtractEventUrl => ["events"]
  | FindMatchesUrl => ["match_result"]
  | CheckProfileUrl => ["email"]
  | HealthUrl => []
  end.

(** The envelope of an error answer: [success] is false, the data fields
    are null and [error] is a string. *)
Definition error_envelope (fields : list string) (r : HttpResponse) : Prop :=
  body_field r "success" = Some (JBool false)
  /\ (forall f, f ∈ fields -> body_field r f = Some JNull)
  /\ exists msg, body_field r "error" = Some (JStr msg).

(** The view that each endpoint places under [cors_exempt]. *)
Definition under_cors (E : Env) (ep : Endpoint) : View :=
  match ep with
  | ExtractEventUrl =>
      require_google_auth E
        (require_http_methods ["POST"; "OPTIONS"] (extract_event_body E))
  | FindMatchesUrl =>
      require_google_auth E
        (require_http_methods ["POST"; "OPTIONS"] (find_matches_body E))
  | HealthUrl => require_http_methods ["GET"; "OPTIONS"] (health_check_body E)
  | CheckProfileUrl =>
      require_http_methods ["GET"; "OPTIONS"] (check_profile_body E)
  end.

(** What an endpoint hands to [cors_exempt]: no CORS header yet, and a
    success, the bare 405 of [require_http_methods], or an error envelope. *)
Definition answer_ok (fields : list string) (r : HttpResponse) : Prop :=
  cors_free r
  /\ (status_code r = 200
      \/ (status_code r = 405 /\ content r = None)
      \/ (status_code r <> 405 /\ error_envelope fields r)).

(** The data fields of the two business endpoints. *)
Definition business_field (f : string) : Prop :=
  f = "events" \/ f = "match_result".

(** The top-level field [name] of the body a view returned, if it returned
    one. *)
Definition answer_field (run : outcome HttpResponse * World) (name : string)
  : option json :=
  match run.1 with
  | Ret r => body_field r name
  | Raise _ => None
  end.

(** The requests on which an endpoint gets as far as checking the token:
    [cors_exempt] answers OPTIONS itself, and [check_profile] sits under
    [require_http_methods]. *)
Definition reaches_verification (ep : Endpoint) (method : string) : bool :=
  match ep with
  | ExtractEventUrl | FindMatchesUrl => negb (bool_decide (method = "OPTIONS"))
  | CheckProfileUrl => bool_decide (method = "GET")
  | HealthUrl => false
  end.

(** ** Sample collaborators *)

(** An environment for the closed examples: Google accepts every token and
    reports subject [u1] with the given email, no profile is registered, the
    request body parses to [data], the API key is set, and the upstream
    answers its [n]-th call with [stub n]. *)
Definition sample_env (email : string) (data : json)
    (stub : nat -> outcome (option string)) : Env :=
  mkEnv
    (fun c =>
       match c with
       | UserinfoCall _ =>
           Ret (mkNetResponse 200
                  (Ret (<["sub" := "u1"]> (<["email" := email]> ∅))))
       | TokeninfoCall _ =>
           Ret (mkNetResponse 200 (Ret {[ "aud" := GOOGLE_CLIENT_ID ]}))
       end)
    (fun _ => Ret false)
    (fun _ => Ret data)
    (Some "api-key")
    (fun _ => Ret "instructions ")
    (fun _ => Ret "conversation")
    (fun _ _ => Ret "match instructions")
    (fun n _ _ _ _ => stub n)
    (fun _ => Ret (JList [])).

(** A match request with no calendar candidate. *)
Definition empty_match_data : json :=
  JDict (<["event" := JDict (<["event_type" := JStr "not_an_event"]>
                               (<["summary" := JStr "lunch"]> ∅))]>
           (<["calendar_events" := JList []]> ∅)).

Definition sample_token : string := "ya29.sample-access-token".

Definition sample_request (method token origin : string) : HttpRequest :=
  mkRequest method
    (<["Authorization" := "Bearer " +:+ token]> (<["Origin" := origin]> ∅))
    "{}" None None.

(** The same collaborators, with Google reporting a longer local part. *)
Definition long_local_env : Env :=
  sample_env "abcdef@x.com" empty_match_data (fun _ => Ret (Some "[]")).

(** Upstream stubs: one that raises a transient error at every attempt, one
    that answers every attempt with an in-band error text, one that raises
    a permanent error. *)
Definition unavailable_env : Env :=
  sample_env "ab@x.com" empty_match_data
    (fun _ => Raise (Exn ExceptionC "503 Service Unavailable")).

Definition inband_env : Env :=
  sample_env "ab@x.com" empty_match_data (fun _ => Ret (Some "503 UNAVAILABLE.")).

Definition bad_request_env : Env :=
  sample_env "ab@x.com" empty_match_data
    (fun _ => Raise (Exn ValueErrorC "400 Bad Request: invalid argument")).

(** The same collaborators, with Google reporting an email whose local part
    is empty. *)
Definition empty_local_env : Env :=
  sample_env "@x.com" empty_match_data (fun _ => Ret (Some "[]")).

Definition sample_userinfo : gmap string string :=
  <["sub" := "u1"]> (<["email" := "ab@x.com"]> ∅).

(** The world once Google has verified [sample_token] ... *)
Definition verified_world : World :=
  log_net (TokeninfoCall sample_token)
    (log_net (UserinfoCall sample_token) empty_world).

(** ... and once the rate limiter has let subject [u1] through for the first
    time. *)
Definition allowed_world : World :=
  set_cache (<[ratelimit_key "u1" := (1, RATE_LIMIT_WINDOW)]> ∅) verified_world.

(** A world in which subject [u1] has used up the default quota. *)
Definition exhausted_world : World :=
  (calls_at "u1" false [0; 0; 0; 0; 0] empty_world).2.

(** ** Further statement-side definitions *)

(** The counter of a subject, when one is stored, lies between 1 and the
    limit. *)
Definition counter_within (user_id : string) (limit : Z) (w : World) : Prop :=
  match cache w !! ratelimit_key user_id with
  | Some (count, _) => 1 <= count <= limit
  | None => True
  end.

(** An answer of [check_rate_limit] whose remaining quota is in range. *)
Definition answer_in_range (limit : Z) (r : outcome (bool * Z * Z)) : Prop :=
  exists allowed remaining,
    r = Ret (allowed, remaining, limit) /\ 0 <= remaining < limit.

(** A world in which subject [u1] has one call left of the default quota. *)
Definition exhausted_world_minus_one : World :=
  (calls_at "u1" false [0; 0; 0; 0] empty_world).2.

(** Google's answers make a stub that fails with a transient error twice
    and then answers. *)
Definition flaky_env : Env :=
  sample_env "ab@x.com" empty_match_data
    (fun n => if (n <? 2)%nat then Raise (Exn ExceptionC "503 Service Unavailable")
              else Ret (Some "[]")).

(** Google rejects every token. *)
Definition rejecting_env : Env :=
  mkEnv (fun _ => Ret (mkNetResponse 401 (Raise (Exn ValueErrorC "no JSON"))))
        (fun _ => Ret false) (fun _ => Ret empty_match_data) (Some "api-key")
        (fun _ => Ret "instructions ") (fun _ => Ret "conversation")
        (fun _ _ => Ret "match instructions")
        (fun _ _ _ _ _ => Ret (Some "[]"))
        (fun _ => Ret (JList [])).

(** The endpoints that sit under [require_google_auth]. *)
Definition business_endpoint (ep : Endpoint) : Prop :=
  ep = ExtractEventUrl \/ ep = FindMatchesUrl.

(** A computation that returns from every world: it never raises. *)
Definition always_returns {A} (m : M A) : Prop :=
  forall w, exists a w', m w = (Ret a, w').

(** The three headers with which [require_google_auth] reports the quota:
    what is left, the limit of the tier, and the tier. *)
Definition rate_headers (r : HttpResponse) : Prop :=
  exists is_ambient remaining,
    0 <= remaining
    /\ resp_headers r !! "X-RateLimit-Remaining" = Some (pretty remaining)
    /\ resp_headers r !! "X-RateLimit-Limit"
       = Some (pretty (rate_limit_of is_ambient))
    /\ resp_headers r !! "X-Ambient-User" = Some (bool_header is_ambient).


(** The sample collaborators, with a request body that is not JSON. *)
Definition bad_json_env : Env :=
  mkEnv (requests_get unavailable_env) (fun _ => Ret false)
        (fun _ => Raise (Exn JSONDecodeErrorC
                           "Expecting value: line 1 column 1 (char 0)"))
        (Some "api-key")
        (fun _ => Ret "instructions ") (fun _ => Ret "conversation")
        (fun _ _ => Ret "match instructions")
        (fun _ _ _ _ _ => Ret (Some "[]"))
        (fun _ => Ret (JList [])).



(** A match request with one calendar candidate. *)
Definition sample_event : json :=
  JDict (<["event_type" := JStr "not_an_event"]> (<["summary" := JStr "lunch"]> ∅)).

Definition one_candidate_match_data : json :=
  JDict (<["event" := sample_event]>
           (<["calendar_events" := JList [JDict (<["id" := JStr "e1"]> ∅)]]> ∅)).

(** Collaborators that parse every body to [data], hold the API key [key],
    answer the upstream's [n]-th call with [stub n], and parse every
    upstream text to [parsed]; the prompt builders echo the user name. *)
Definition business_env (data : json) (key : option string)
    (stub : nat -> outcome (option string)) (parsed : json) : Env :=
  mkEnv (requests_get unavailable_env) (fun _ => Ret false)
        (fun _ => Ret data) key
        (fun user_name => Ret ("Extract events for " +:+ user_name +:+ ": "))
        (fun _ => Ret "conversation")
        (fun _ _ => Ret "match instructions")
        (fun n _ _ _ _ => stub n)
        (fun _ => Ret parsed).

(** The world after three transient attempts: three calls, and pauses of
    1, 2 and 3 seconds. *)
Definition exhausted_upstream_world : World :=
  log_sleep 3 (count_gemini_call
    (log_sleep 2 (count_gemini_call
      (log_sleep 1 (count_gemini_call empty_world))))).

(** ** validators.py, the file request *)

Definition MAX_FILE_SIZE_BYTES : Z := 20 * 1024 * 1024.

Definition validate_file_extract_request (data : json) : Validators.Verdict :=
  match data with
  | JDict m =>
      if negb (Validators.has_key m "file_data") then
        Validators.invalid "Missing required field: file_data"
      else
        match Validators.dict_get m "file_data" with
        | JStr file_data =>
            if bool_decide (PyStr.strip file_data = "") then
              Validators.invalid "Field 'file_data' cannot be empty"
            else
              let estimated_size := (PyStr.len file_data * 3) `div` 4 in
              if bool_decide (estimated_size > MAX_FILE_SIZE_BYTES) then
                Validators.invalid
                  ("File too large. Maximum size is "
                   +:+ pretty (MAX_FILE_SIZE_BYTES `div` (1024 * 1024)) +:+ " MB")
              else if negb (Validators.has_key m "mime_type") then
                Validators.invalid "Missing required field: mime_type"
              else
                match Validators.dict_get m "mime_type" with
                | JStr mime_type =>
                    if bool_decide (PyStr.strip mime_type = "") then
                      Validators.invalid "Field 'mime_type' cannot be empty"
                    else Validators.valid
                | _ => Validators.invalid "Field 'mime_type' must be a string"
                end
        | _ =>
            Validators.invalid
              "Field 'file_data' must be a base64-encoded string"
        end
  | _ => Validators.invalid "Request must be a JSON object"
  end.

(** ** The shapes the validators document *)

Module Shapes.

(** The field [key] of a dict holds a string. *)
Definition str_field (m : gmap string json) (key : string) : bool :=
  match m !! key with
  | Some (JStr _) => true
  | _ => false
  end.


(** A message: an object with string [date], [sender] and [text]. *)
Definition message_ok (x : json) : bool :=
  match x with
  | JDict m => str_field m "date" && str_field m "sender" && str_field m "text"
  | _ => false
  end.

(** [participants], when present, is a list of strings. *)
Definition participants_ok (m : gmap string json) : bool :=
  match m !! "participants" with
  | None => true
  | Some (JList ps) => forallb Validators.is_str ps
  | Some _ => false
  end.

(** A conversation: an object with a string [title], a list of messages
    and, optionally, a list of participant names. *)
Definition conversation_ok (data : json) : bool :=
  match data with
  | JDict m =>
      str_field m "title"
      && match m !! "structured_messages" with
         | Some (JList messages) => forallb message_ok messages
         | _ => false
         end
      && participants_ok m
  | _ => false
  end.

(** [start] and [end], each absent, null or an object. *)
Definition date_field_ok (m : gmap string json) (field : string) : bool :=
  match m !! field with
  | None | Some JNull | Some (JDict _) => true
  | Some _ => false
  end.

(** An extracted event: an object with one of the four event types, a
    [summary] of any kind, and well-formed [start] and [end]. *)
Definition event_ok (data : json) : bool :=
  match data with
  | JDict m =>
      match m !! "event_type" with
      | Some (JStr t) => bool_decide (t ∈ Validators.valid_event_types)
      | _ => false
      end
      && bool_decide (is_Some (m !! "summary"))
      && date_field_ok m "start" && date_field_ok m "end"
  | _ => false
  end.

(** A calendar event: an object with well-formed [start] and [end]. *)
Definition calendar_event_ok (data : json) : bool :=
  match data with
  | JDict m => date_field_ok m "start" && date_field_ok m "end"
  | _ => false
  end.

(** A match request: an object with an extracted event and a list of
    calendar events. *)
Definition match_request_ok (data : json) : bool :=
  match data with
  | JDict m =>
      match m !! "event", m !! "calendar_events" with
      | Some event, Some (JList events) =>
          event_ok event && forallb calendar_event_ok events
      | _, _ => false
      end
  | _ => false
  end.


(** A verdict is an acceptance without message or a refusal with one. *)
Definition wellformed (v : Validators.Verdict) : Prop :=
  v = Validators.valid \/ exists msg, v = Validators.invalid msg.

End Shapes.

(** * Theorems *)

(** String tests stay folded under [simpl]: the proofs rewrite with them. *)
Arguments PyStr.any_in : simpl never.
Arguments PyStr.str_in : simpl never.
Arguments PyStr.startswith : simpl never.
Arguments PyStr.slice_from : simpl never.
Arguments PyStr.len : simpl never.
Arguments Validators.validate_match_request : simpl never.
Arguments Validators.validate_extract_request : simpl never.

(** ** The rate limiter *)

(** Equalities between tuples and records that differ by arithmetic only. *)
Ltac eq_arith := repeat first [ lia | done | progress f_equal ].

Section RateLimiter.

Implicit Types (w : World) (user_id : string) (amb : bool).

Lemma rate_limit_of_pos amb : 0 < rate_limit_of amb.
Proof. by destruct amb. Qed.

(** A call that reads a count at or over the limit refuses and leaves the
    world as it found it. *)
Lemma check_rate_limit_reject user_id amb w c :
  count_at user_id (now w) w = Ret c ->
  c >= rate_limit_of amb ->
  check_rate_limit user_id amb w = (Ret (false, 0, rate_limit_of amb), w).
Proof.
  unfold count_at, check_rate_limit, mbind, M_bind, mret, M_ret, cache_get.
  destruct w as [ch t nl g sl]; simpl.
  intros Hget Hc.
  destruct (ch !! ratelimit_key user_id) as [[v e]|]; simpl in *;
    repeat case_bool_decide; simpl in *; simplify_eq; try done; lia.
Qed.

(** A call that reads a count under the limit allows, answers with what
    is left after it, and stores the incremented count with an expiry one
    full window after the call. *)
Lemma check_rate_limit_allow user_id amb w c :
  count_at user_id (now w) w = Ret c ->
  c < rate_limit_of amb ->
  check_rate_limit user_id amb w =
    (Ret (true, rate_limit_of amb - (c + 1), rate_limit_of amb),
     set_cache (<[ratelimit_key user_id := (c + 1, now w + RATE_LIMIT_WINDOW)]>
                  (cache w)) w).
Proof.
  unfold count_at, check_rate_limit, mbind, M_bind, mret, M_ret, cache_get,
    cache_set.
  destruct w as [ch t nl g sl]; simpl.
  intros Hget Hc.
  destruct (ch !! ratelimit_key user_id) as [[v e]|]; simpl in *;
    repeat case_bool_decide; simpl in *; simplify_eq; try lia;
    eq_arith.
Qed.

(** A stored count whose expiry lies beyond the window that opened at [t1]
    is what every call inside that window reads. *)
Lemma count_at_stored user_id w t1 t c e :
  cache w !! ratelimit_key user_id = Some (c, e) ->
  t1 + RATE_LIMIT_WINDOW <= e ->
  t1 <= t < t1 + RATE_LIMIT_WINDOW ->
  count_at user_id (now (at_time t w)) (at_time t w) = Ret c.
Proof.
  intros Hc He Ht. unfold count_at, cache_get. simpl. rewrite Hc.
  rewrite bool_decide_true by lia. done.
Qed.

(** The calls of one window, after [k] calls have left the counter at
    [min k limit]: they are answered as calls number [k + 1], [k + 2], ... *)
Lemma calls_at_from user_id amb t1 ts : forall w (k : nat) e,
  cache w !! ratelimit_key user_id
    = Some (Z.min (Z.of_nat k) (rate_limit_of amb), e) ->
  t1 + RATE_LIMIT_WINDOW <= e ->
  Forall (fun t => t1 <= t < t1 + RATE_LIMIT_WINDOW) ts ->
  (calls_at user_id amb ts w).1 = nth_call_answer amb <$> seq (S k) (length ts).
Proof.
  induction ts as [|t ts IH]; intros w k e Hc He Hts; [done|].
  inversion Hts as [|? ? Ht Hrest]; subst.
  pose proof (count_at_stored _ _ _ _ _ _ Hc He Ht) as Hcount.
  simpl calls_at.
  destruct (decide (Z.of_nat k < rate_limit_of amb)) as [Hlt|Hge].
  - rewrite (check_rate_limit_allow _ _ _ _ Hcount) by lia.
    specialize (IH (set_cache (<[ratelimit_key user_id :=
                      (Z.min (Z.of_nat k) (rate_limit_of amb) + 1,
                       now (at_time t w) + RATE_LIMIT_WINDOW)]>
                      (cache (at_time t w))) (at_time t w)) (S k)
                   (t + RATE_LIMIT_WINDOW)).
    destruct (calls_at user_id amb ts _) as [rs w2] eqn:Hcalls.
    simpl in *. f_equal.
    + unfold nth_call_answer. rewrite bool_decide_true by lia.
      eq_arith.
    + apply IH; [|lia|done].
      rewrite lookup_insert_eq. eq_arith.
  - rewrite (check_rate_limit_reject _ _ _ _ Hcount) by lia.
    specialize (IH (at_time t w) (S k) e).
    destruct (calls_at user_id amb ts _) as [rs w2] eqn:Hcalls.
    simpl in *. f_equal.
    + unfold nth_call_answer. rewrite bool_decide_false by lia. done.
    + apply IH; [|done..].
      rewrite Hc. eq_arith.
Qed.

End RateLimiter.

(** C2. Within one window, opened at [t1] by a call that finds the counter
    absent, expired or at zero, the [N]-th call of a subject is allowed iff
    [N <= limit], where the limit is 5 for the default tier and 10 for the
    elevated one; an allowed call answers [(true, limit - (count + 1),
    limit)] and a call that reads [count >= limit] answers
    [(false, 0, limit)] and leaves the world, the counter included, as it
    was. *)
Theorem rate_limit_nth_call user_id amb w t1 ts :
  count_at user_id t1 w = Ret 0 ->
  Forall (fun t => t1 <= t < t1 + RATE_LIMIT_WINDOW) ts ->
  (calls_at user_id amb (t1 :: ts) w).1
    = nth_call_answer amb <$> seq 1 (S (length ts))
  /\ rate_limit_of false = 5 /\ rate_limit_of true = 10
  /\ forall w' count, count_at user_id (now w') w' = Ret count ->
       (count < rate_limit_of amb ->
          (check_rate_limit user_id amb w').1
            = Ret (true, rate_limit_of amb - (count + 1), rate_limit_of amb))
       /\ (count >= rate_limit_of amb ->
          check_rate_limit user_id amb w'
            = (Ret (false, 0, rate_limit_of amb), w')).
Proof.
  intros H0 Hts. split; [|split; [done|split; [done|]]].
  - pose proof (rate_limit_of_pos amb) as Hpos.
    assert (count_at user_id (now (at_time t1 w)) (at_time t1 w) = Ret 0)
      as Hfirst by done.
    simpl calls_at.
    rewrite (check_rate_limit_allow _ _ _ _ Hfirst) by lia.
    pose proof (calls_at_from user_id amb t1 ts
      (set_cache (<[ratelimit_key user_id :=
                     (0 + 1, now (at_time t1 w) + RATE_LIMIT_WINDOW)]>
                   (cache (at_time t1 w))) (at_time t1 w)) 1
      (t1 + RATE_LIMIT_WINDOW)) as Hrest.
    destruct (calls_at user_id amb ts _) as [rs w2] eqn:Hcalls.
    simpl in *. f_equal.
    + unfold nth_call_answer. rewrite bool_decide_true by lia. eq_arith.
    + apply Hrest; [|lia|done].
      rewrite lookup_insert_eq. eq_arith.
  - intros w' count Hcount. split; intros Hc.
    + by rewrite (check_rate_limit_allow _ _ _ _ Hcount Hc).
    + by apply check_rate_limit_reject with (c := count).
Qed.

Lemma rate_limit_nth_call_witness :
  count_at "u1" 100 empty_world = Ret 0
  /\ Forall (fun t => 100 <= t < 100 + RATE_LIMIT_WINDOW)
            [200; 300; 400; 500; 86000; 86499]
  /\ (calls_at "u1" false [100; 200; 300; 400; 500; 86000; 86499] empty_world).1
     = [Ret (true, 4, 5); Ret (true, 3, 5); Ret (true, 2, 5); Ret (true, 1, 5);
        Ret (true, 0, 5); Ret (false, 0, 5); Ret (false, 0, 5)].
Proof.
  assert (count_at "u1" 100 empty_world = Ret 0) as H0 by reflexivity.
  assert (Forall (fun t => 100 <= t < 100 + RATE_LIMIT_WINDOW)
                 [200; 300; 400; 500; 86000; 86499]) as Hts
    by (repeat constructor; unfold RATE_LIMIT_WINDOW; lia).
  split; [exact H0|split; [exact Hts|]].
  exact (proj1 (rate_limit_nth_call "u1" false empty_world 100 _ H0 Hts)).
Defined.

(** C1. The window is not fixed in the code: every allowed call stores the
    counter with a fresh expiry.  A first call at instant 0 opens a window
    that ends at 86400; a second call at 86399 moves the expiry to 172799;
    the third call, at 86400, therefore still reads the count 2 and is
    answered as the third call of the window, where a fixed window would
    have started anew. *)
Theorem rate_limit_expiry_moves :
  expiry_of "u1" (calls_at "u1" false [0] empty_world).2 = Some 86400
  /\ expiry_of "u1" (calls_at "u1" false [0; 86399] empty_world).2 = Some 172799
  /\ count_at "u1" 86400 (calls_at "u1" false [0; 86399] empty_world).2 = Ret 2
  /\ (calls_at "u1" false [0; 86399; 86400] empty_world).1
     = [Ret (true, 4, 5); Ret (true, 3, 5); Ret (true, 2, 5)].
Proof. by vm_compute. Qed.

(** Every allowed call moves the expiry, whether or not a counter was
    already stored. *)
Lemma check_rate_limit_sets_expiry user_id amb w remaining limit w' :
  check_rate_limit user_id amb w = (Ret (true, remaining, limit), w') ->
  expiry_of user_id w' = Some (now w + RATE_LIMIT_WINDOW).
Proof.
  unfold check_rate_limit, mbind, M_bind, mret, M_ret, cache_get, cache_set,
    expiry_of.
  destruct w as [ch t nl g sl]; simpl.
  destruct (ch !! ratelimit_key user_id) as [[v e]|]; simpl;
    repeat (case_bool_decide; simpl); intros; simplify_eq; simpl;
    by rewrite lookup_insert_eq.
Qed.

(** ** The retrying upstream caller *)

Section Retry.

Context (E : Env).
Context (client model_name prompt : string) (config : gmap string string).

(** The stub's answer to the call that comes after [g] earlier ones. *)
Local Notation "'answer' g" :=
  (generate_content E g client model_name prompt config)
  (at level 10, g at level 9, only parsing).

Lemma py_range_seq (n : nat) : py_range (Z.of_nat n) = Z.of_nat <$> seq 0 n.
Proof. unfold py_range. by rewrite Nat2Z.id. Qed.

Lemma py_range_first (max_retries : Z) :
  1 <= max_retries ->
  exists rest, py_range max_retries = 0 :: rest.
Proof.
  intros H. unfold py_range.
  destruct (Z.to_nat max_retries) as [|n] eqn:Hn; [lia|].
  simpl. eauto.
Qed.

(** One round of the loop whose attempt raises a non-transient error. *)
Lemma retry_loop_reraise max_retries attempt rest w e :
  answer (gemini_calls w) = Raise e ->
  PyStr.any_in transient_codes (exn_str e) = false ->
  retry_loop E client model_name prompt config max_retries (attempt :: rest) w
    = (Raise e, count_gemini_call w).
Proof.
  intros Hans Hnt. simpl.
  unfold mbind, M_bind, try_except, call_generate, raise.
  rewrite Hans. simpl. by rewrite Hnt.
Qed.

(** One round of the loop whose attempt is transient and not the last
    one of a raising kind: a pause, then the rest of the attempts. *)
Lemma retry_loop_transient_step max_retries attempt rest w :
  transient_attempt (answer (gemini_calls w)) = true ->
  (rest = [] -> exists text, answer (gemini_calls w) = Ret text) ->
  (rest <> [] -> attempt <> max_retries - 1) ->
  retry_loop E client model_name prompt config max_retries (attempt :: rest) w
    = retry_loop E client model_name prompt config max_retries rest
        (log_sleep (attempt + 1) (count_gemini_call w)).
Proof.
  intros Htr Hlast Hnotlast. simpl.
  unfold mbind, M_bind, try_except, call_generate, raise, time_sleep,
    mret, M_ret.
  destruct (generate_content E (gemini_calls w) client model_name prompt config)
    as [text|e] eqn:Hans; simpl in *.
  - destruct text as [t|]; [|done]. simpl in Htr.
    apply andb_true_iff in Htr as [Hne Hin]. rewrite Hne. simpl.
    apply orb_true_iff in Hin as [Hin|Hin]; rewrite Hin; simpl; [done|].
    by destruct (PyStr.str_in "Error processing request: 500 INTERNAL." t).
  - rewrite Htr. simpl.
    destruct rest as [|a rest'].
    + destruct Hlast as [text Htext]; [done|]. discriminate.
    + rewrite bool_decide_false by (apply Hnotlast; done). done.
Qed.

(** The last round, when its attempt raises a transient error: a pause
    and the terminal error that quotes the message. *)
Lemma retry_loop_last_raise max_retries w e :
  answer (gemini_calls w) = Raise e ->
  PyStr.any_in transient_codes (exn_str e) = true ->
  retry_loop E client model_name prompt config max_retries
             [max_retries - 1] w
    = (Raise (exhausted_error max_retries (Some (Raise e))),
       log_sleep (max_retries - 1 + 1) (count_gemini_call w)).
Proof.
  intros Hans Htr. simpl.
  unfold mbind, M_bind, try_except, call_generate, raise, time_sleep,
    mret, M_ret.
  rewrite Hans. simpl. rewrite Htr. simpl.
  by rewrite bool_decide_true.
Qed.

Lemma retry_loop_exhausts (n : nat) : forall (m a : nat) w,
  (a + S m = n)%nat ->
  (forall i, (i < S m)%nat ->
     transient_attempt (answer (gemini_calls w + i)) = true) ->
  exists w',
    retry_loop E client model_name prompt config (Z.of_nat n)
               (Z.of_nat <$> seq a (S m)) w
      = (Raise (exhausted_error (Z.of_nat n)
                  (Some (answer (gemini_calls w + m)))), w')
    /\ after_attempts a (S m) w w'.
Proof.
  induction m as [|m IH]; intros a w Han Htr.
  - (* the last attempt *)
    pose proof (Htr 0%nat ltac:(lia)) as Htr0.
    rewrite Nat.add_0_r in *.
    destruct (answer (gemini_calls w)) as [text|e] eqn:Hans.
    + eexists. split.
      * simpl fmap. rewrite retry_loop_transient_step;
          [reflexivity| by rewrite Hans | eauto | done].
      * unfold after_attempts, backoff. simpl.
        repeat split; f_equal; lia.
    + replace (Z.of_nat <$> seq a 1) with [Z.of_nat n - 1]
        by (simpl; f_equal; lia).
      eexists. split; [by apply retry_loop_last_raise|].
      unfold after_attempts, backoff. simpl.
      repeat split; try (f_equal; lia).
      do 3 f_equal. lia.
  - pose proof (Htr 0%nat ltac:(lia)) as Htr0.
    rewrite Nat.add_0_r in Htr0.
    change (Z.of_nat <$> seq a (S (S m)))
      with (Z.of_nat a :: (Z.of_nat <$> seq (S a) (S m))).
    rewrite retry_loop_transient_step; [|done|done|intros _; lia].
    destruct (IH (S a) (log_sleep (Z.of_nat a + 1) (count_gemini_call w)))
      as (w' & Hrun & Hg & Hs & Hc & Hn); [lia| |].
    { intros i Hi. specialize (Htr (S i) ltac:(lia)).
      simpl. by rewrite Nat.add_succ_r in Htr. }
    exists w'. split.
    + rewrite Hrun. simpl. by rewrite Nat.add_succ_r.
    + unfold after_attempts. simpl in *.
      repeat split; [lia| |done..].
      rewrite Hs. unfold backoff. simpl. by rewrite <- app_assoc.
Qed.

End Retry.

(** C4 (as amended). When every attempt is transient, by a raised error with
    a transient code in its message or by a returned text with an in-band
    error, [call_gemini_with_retry] makes exactly [max_retries] attempts,
    pausing [attempt + 1] seconds after each, and raises a terminal error.
    That error quotes the last underlying message when the last attempt
    raised; it is the fixed text "max retries exceeded" when the last
    attempt returned an in-band error text, or when no attempt was made. *)
Theorem retry_exhausts E client model_name prompt config max_retries w :
  (forall i, (i < Z.to_nat max_retries)%nat ->
     transient_attempt
       (generate_content E (gemini_calls w + i) client model_name prompt config)
     = true) ->
  exists w',
    call_gemini_with_retry E client model_name prompt config max_retries w
      = (Raise (exhausted_error max_retries
                  match Z.to_nat max_retries with
                  | O => None
                  | S m => Some (generate_content E (gemini_calls w + m)
                                   client model_name prompt config)
                  end), w')
    /\ after_attempts 0 (Z.to_nat max_retries) w w'.
Proof.
  intros Htr. unfold call_gemini_with_retry, py_range.
  destruct (Z.to_nat max_retries) as [|m] eqn:Hn.
  - exists w. split; [done|].
    unfold after_attempts, backoff. simpl.
    rewrite Nat.add_0_r, app_nil_r. done.
  - assert (max_retries = Z.of_nat (S m)) as -> by lia.
    by apply retry_loop_exhausts.
Qed.

Lemma retry_exhausts_witness :
  (forall i, (i < Z.to_nat 3)%nat ->
     transient_attempt
       (generate_content unavailable_env (gemini_calls empty_world + i)
          "k" "m" "p" ∅) = true)
  /\ exists w',
       call_gemini_with_retry unavailable_env "k" "m" "p" ∅ 3 empty_world
         = (Raise (Exn ExceptionC
              "Gemini API error after 3 attempts: 503 Service Unavailable"), w')
       /\ after_attempts 0 3 empty_world w'.
Proof.
  assert (forall i, (i < Z.to_nat 3)%nat ->
     transient_attempt
       (generate_content unavailable_env (gemini_calls empty_world + i)
          "k" "m" "p" ∅) = true)
    as Htr by (intros i _; reflexivity).
  split; [exact Htr|].
  exact (retry_exhausts unavailable_env "k" "m" "p" ∅ 3 empty_world Htr).
Defined.

(** C4 (as stated) fails on a stub that answers every attempt with an
    in-band error text: after the three attempts the error raised is the
    fixed text, in which the last underlying message does not occur. *)
Lemma retry_exhausted_inband_drops_message :
  (forall i,
     transient_attempt (generate_content inband_env i "k" "m" "p" ∅) = true)
  /\ exists e w',
       call_gemini_with_retry inband_env "k" "m" "p" ∅ 3 empty_world
         = (Raise e, w')
       /\ gemini_calls w' = 3%nat
       /\ exn_str e = "Gemini API error: max retries exceeded"
       /\ PyStr.str_in "503 UNAVAILABLE." (exn_str e) = false.
Proof.
  split; [by intros i|].
  eexists _, _. split; [by vm_compute|]. by vm_compute.
Qed.

(** C5. When the first attempt raises an error whose message holds none of
    the transient codes, [call_gemini_with_retry] raises that very error
    after this one attempt: one call was made, nothing was slept, and the
    rest of the world is as it was. *)
Theorem retry_nontransient_immediate
    E client model_name prompt config max_retries w e :
  1 <= max_retries ->
  generate_content E (gemini_calls w) client model_name prompt config = Raise e ->
  PyStr.any_in transient_codes (exn_str e) = false ->
  exists w',
    call_gemini_with_retry E client model_name prompt config max_retries w
      = (Raise e, w')
    /\ gemini_calls w' = S (gemini_calls w)
    /\ slept w' = slept w
    /\ now w' = now w.
Proof.
  intros Hmax Hans Hnt. unfold call_gemini_with_retry.
  destruct (py_range_first max_retries Hmax) as [rest ->].
  exists (count_gemini_call w). split; [|done].
  by apply retry_loop_reraise.
Qed.

Lemma retry_nontransient_immediate_witness :
  1 <= 3
  /\ generate_content bad_request_env (gemini_calls empty_world) "k" "m" "p" ∅
     = Raise (Exn ValueErrorC "400 Bad Request: invalid argument")
  /\ PyStr.any_in transient_codes "400 Bad Request: invalid argument" = false
  /\ exists w',
       call_gemini_with_retry bad_request_env "k" "m" "p" ∅ 3 empty_world
         = (Raise (Exn ValueErrorC "400 Bad Request: invalid argument"), w')
       /\ gemini_calls w' = 1%nat /\ slept w' = [] /\ now w' = 0.
Proof.
  assert (1 <= 3) as H1 by lia.
  assert (generate_content bad_request_env (gemini_calls empty_world)
            "k" "m" "p" ∅
          = Raise (Exn ValueErrorC "400 Bad Request: invalid argument")) as H2
    by reflexivity.
  assert (PyStr.any_in transient_codes
            (exn_str (Exn ValueErrorC "400 Bad Request: invalid argument")) = false)
    as H3 by reflexivity.
  split; [exact H1|split; [exact H2|split; [exact H3|]]].
  exact (retry_nontransient_immediate bad_request_env "k" "m" "p" ∅ 3
           empty_world _ H1 H2 H3).
Defined.

(** ** Reasoning about what a computation returns *)

Section Returns.

Context {A B : Type}.

Lemma returns_ret (a : A) (P : A -> Prop) : P a -> returns (mret a) P.
Proof. intros HP w a' w' Heq. by inversion Heq; subst. Qed.

Lemma returns_raise (e : exn) (P : A -> Prop) : returns (raise e) P.
Proof. intros w a w' Heq. inversion Heq. Qed.

Lemma returns_lift (o : outcome A) (P : A -> Prop) :
  (forall a, o = Ret a -> P a) -> returns (lift o) P.
Proof. intros HP w a w' Heq. inversion Heq; subst. by apply HP. Qed.

Lemma returns_bind (m : M A) (f : A -> M B) (P : A -> Prop) (Q : B -> Prop) :
  returns m P -> (forall a, P a -> returns (f a) Q) -> returns (m ≫= f) Q.
Proof.
  intros Hm Hf w b w' Heq. unfold mbind, M_bind in Heq.
  destruct (m w) as [[a|e] w1] eqn:Hrun; [|done].
  eapply Hf; [|done]. by eapply Hm.
Qed.

Lemma returns_bind_any (m : M A) (f : A -> M B) (Q : B -> Prop) :
  (forall a, returns (f a) Q) -> returns (m ≫= f) Q.
Proof.
  intros Hf. apply returns_bind with (P := fun _ => True); [done|auto].
Qed.

Lemma returns_try_except (m : M A) (h : exn -> M A) (P : A -> Prop) :
  returns m P -> (forall e, returns (h e) P) -> returns (try_except m h) P.
Proof.
  intros Hm Hh w a w' Heq. unfold try_except in Heq.
  destruct (m w) as [[a1|e] w1] eqn:Hrun.
  - inversion Heq; subst. by eapply Hm.
  - by eapply Hh.
Qed.

Lemma returns_try_except_if (cls : exn -> bool) (m : M A) (h : exn -> M A)
    (P : A -> Prop) :
  returns m P -> (forall e, returns (h e) P) ->
  returns (try_except_if cls m h) P.
Proof.
  intros Hm Hh. apply returns_try_except; [done|].
  intros e. destruct (cls e); [done|apply returns_raise].
Qed.

Lemma returns_weaken (m : M A) (P Q : A -> Prop) :
  returns m P -> (forall a, P a -> Q a) -> returns m Q.
Proof. intros Hm HPQ w a w' Heq. apply HPQ. by eapply Hm. Qed.

End Returns.

(** ** The validators give a message with every refusal *)

Module ValidatorFacts.
Import Validators.

Lemma explained_invalid msg : explained (invalid msg).
Proof. intros _. by exists msg. Qed.

Lemma explained_valid : explained valid.
Proof. intros Hf. discriminate. Qed.

#[local] Hint Resolve explained_invalid explained_valid : core.

Lemma validate_messages_explained messages :
  forall idx, explained (validate_messages idx messages).
Proof.
  induction messages as [|m rest IH]; intros idx; simpl; [done|].
  repeat case_match; auto.
Qed.

Lemma validate_participants_explained ps :
  forall idx, explained (validate_participants idx ps).
Proof.
  induction ps as [|p rest IH]; intros idx; simpl; [done|].
  repeat case_match; auto.
Qed.

Lemma validate_date_fields_explained m fields :
  explained (validate_date_fields m fields).
Proof.
  induction fields as [|f rest IH]; simpl; [done|].
  repeat case_match; auto.
Qed.

Lemma validate_conversation_explained data :
  explained (validate_conversation data).
Proof.
  unfold validate_conversation.
  repeat case_match; subst; auto using validate_participants_explained.
  match goal with
  | Hv : validate_messages 0 ?l = _ |- _ =>
      pose proof (validate_messages_explained l 0) as Hm; by rewrite Hv in Hm
  end.
Qed.

Lemma validate_extracted_event_explained data :
  explained (validate_extracted_event data).
Proof.
  unfold validate_extracted_event.
  repeat case_match; auto using validate_date_fields_explained.
Qed.

Lemma validate_calendar_event_explained data :
  explained (validate_calendar_event data).
Proof.
  unfold validate_calendar_event.
  repeat case_match; auto using validate_date_fields_explained.
Qed.

Lemma validate_calendar_events_explained events :
  forall idx, explained (validate_calendar_events idx events).
Proof.
  induction events as [|ev rest IH]; intros idx; simpl; [done|].
  repeat case_match; auto.
Qed.

Lemma validate_match_request_explained data :
  explained (validate_match_request data).
Proof.
  unfold validate_match_request.
  repeat case_match; auto using validate_calendar_events_explained.
Qed.

Lemma validate_extract_request_explained data :
  explained (validate_extract_request data).
Proof.
  unfold validate_extract_request.
  repeat case_match; auto.
Qed.

End ValidatorFacts.

(** ** What the views and their decorators answer *)

Section Answers.

Context (E : Env).

Lemma cors_free_json data status : cors_free (JsonResponse data status).
Proof.
  intros name Hin. unfold CORS_HEADERS in Hin.
  repeat (apply elem_of_cons in Hin as [->|Hin]); try done.
  by apply elem_of_nil in Hin.
Qed.

Lemma cors_free_empty : cors_free EmptyResponse.
Proof.
  intros name Hin. unfold CORS_HEADERS in Hin.
  repeat (apply elem_of_cons in Hin as [->|Hin]); try done.
  by apply elem_of_nil in Hin.
Qed.

Lemma cors_free_set_header name value r :
  name ∉ CORS_HEADERS -> cors_free r -> cors_free (set_header name value r).
Proof.
  intros Hname Hr n Hn. simpl.
  rewrite lookup_insert_ne; [by apply Hr|]. by intros ->.
Qed.

Lemma error_envelope_set_header fields name value r :
  error_envelope fields r -> error_envelope fields (set_header name value r).
Proof. done. Qed.

Lemma answer_ok_set_header fields name value r :
  name ∉ CORS_HEADERS -> answer_ok fields r ->
  answer_ok fields (set_header name value r).
Proof.
  intros Hname [Hc Hs]. split; [by apply cors_free_set_header|done].
Qed.

Lemma answer_ok_success fields data : answer_ok fields (JsonResponse data 200).
Proof. split; [apply cors_free_json|by left]. Qed.

(** An error built by the views: the three fields of the envelope are
    read off the literal dict. *)
Lemma answer_ok_error fields data status :
  status <> 405 ->
  (list_to_map data : gmap string json) !! "success" = Some (JBool false) ->
  Forall (fun f => (list_to_map data : gmap string json) !! f = Some JNull)
         fields ->
  (exists msg, (list_to_map data : gmap string json) !! "error"
               = Some (JStr msg)) ->
  answer_ok fields (JsonResponse data status).
Proof.
  intros Hst Hs Hf He. split; [apply cors_free_json|].
  right; right. split; [done|]. split; [done|]. split; [|done].
  intros f Hin. unfold body_field. simpl.
  by eapply Forall_forall in Hf.
Qed.

Lemma view_handlers_ok f e :
  business_field f -> returns (view_handlers f e) (answer_ok [f]).
Proof.
  intros [-> | ->]; unfold view_handlers; destruct (is_ValueError e);
    apply returns_ret, answer_ok_error; eauto.
Qed.

Lemma parse_body_ok f request :
  business_field f ->
  returns (parse_body E f request)
    (fun x => match x with inl r => answer_ok [f] r | inr _ => True end).
Proof.
  intros Hf. unfold parse_body. apply returns_try_except_if.
  - apply returns_bind_any. intros data. by apply returns_ret.
  - intros e. apply returns_ret.
    destruct Hf as [-> | ->]; apply answer_ok_error; [done|..]; eauto.
Qed.

Lemma parse_ai_response_ok f text :
  business_field f ->
  returns (parse_ai_response E f text)
    (fun x => match x with inl r => answer_ok [f] r | inr _ => True end).
Proof.
  intros Hf. unfold parse_ai_response. apply returns_try_except.
  - apply returns_bind_any. intros data. by apply returns_ret.
  - intros e. apply returns_ret.
    destruct Hf as [-> | ->]; apply answer_ok_error; [done|..]; eauto.
Qed.

Lemma extract_event_body_ok request :
  returns (extract_event_body E request) (answer_ok ["events"]).
Proof.
  unfold extract_event_body.
  apply returns_try_except; [|intros e; apply view_handlers_ok; by left].
  eapply returns_bind; [apply parse_body_ok; by left|].
  intros [response|data] Hparsed; [by apply returns_ret|].
  pose proof (ValidatorFacts.validate_extract_request_explained data) as Hex.
  destruct (Validators.validate_extract_request data) as [[] error]; simpl.
  - do 7 (apply returns_bind_any; intros ?).
    eapply returns_bind; [apply parse_ai_response_ok; by left|].
    intros [response|parsed] Hp; [by apply returns_ret|].
    apply returns_bind_any. intros is_ambient.
    apply returns_ret, answer_ok_success.
  - destruct (Hex eq_refl) as [msg Hmsg]. simpl in Hmsg. subst error.
    apply returns_ret, answer_ok_error; eauto.
Qed.

Lemma find_matches_body_ok request :
  returns (find_matches_body E request) (answer_ok ["match_result"]).
Proof.
  unfold find_matches_body.
  apply returns_try_except; [|intros e; apply view_handlers_ok; by right].
  eapply returns_bind; [apply parse_body_ok; by right|].
  intros [response|data] Hparsed; [by apply returns_ret|].
  pose proof (ValidatorFacts.validate_match_request_explained data) as Hex.
  destruct (Validators.validate_match_request data) as [[] error]; simpl.
  - do 3 (apply returns_bind_any; intros ?).
    case_bool_decide.
    + apply returns_bind_any. intros is_ambient.
      apply returns_ret, answer_ok_success.
    + do 3 (apply returns_bind_any; intros ?).
      eapply returns_bind; [apply parse_ai_response_ok; by right|].
      intros [response|parsed] Hp; [by apply returns_ret|].
      apply returns_bind_any. intros is_ambient.
      apply returns_ret, answer_ok_success.
  - destruct (Hex eq_refl) as [msg Hmsg]. simpl in Hmsg. subst error.
    apply returns_ret, answer_ok_error; eauto.
Qed.

Lemma health_check_body_ok request :
  returns (health_check_body E request) (answer_ok []).
Proof. apply returns_ret, answer_ok_success. Qed.

Lemma profile_error_ok msg : answer_ok ["email"] (profile_error msg).
Proof. apply answer_ok_error; [done|..]; eauto. Qed.

Lemma check_profile_body_ok request :
  returns (check_profile_body E request) (answer_ok ["email"]).
Proof.
  unfold check_profile_body.
  case_bool_decide.
  { apply returns_ret. split; [apply cors_free_empty|by left]. }
  destruct (negb _); [apply returns_ret, profile_error_ok|].
  destruct (_ || _); [apply returns_ret, profile_error_ok|].
  apply returns_bind_any. intros userinfo.
  destruct (falsy_userinfo userinfo); [apply returns_ret, profile_error_ok|].
  do 2 (apply returns_bind_any; intros ?).
  apply returns_ret, answer_ok_success.
Qed.

Lemma require_http_methods_ok fields permitted (view_func : View) request :
  (forall request, returns (view_func request) (answer_ok fields)) ->
  returns (require_http_methods permitted view_func request) (answer_ok fields).
Proof.
  intros Hv. unfold require_http_methods. case_bool_decide; [done|].
  apply returns_ret. split; [|by right; left].
  intros name Hin. unfold CORS_HEADERS in Hin. simpl.
  repeat (apply elem_of_cons in Hin as [->|Hin]); try done.
  by apply elem_of_nil in Hin.
Qed.

Lemma auth_error_ok fields msg :
  fields ⊆ ["events"; "match_result"] -> answer_ok fields (auth_error msg).
Proof.
  intros Hsub. apply answer_ok_error; [done|..]; eauto.
  apply Forall_forall. intros f Hf. apply Hsub in Hf.
  repeat (apply elem_of_cons in Hf as [->|Hf]); try done.
  by apply elem_of_nil in Hf.
Qed.

Lemma rate_limited_response_ok fields is_ambient limit :
  fields ⊆ ["events"; "match_result"] ->
  answer_ok fields (rate_limited_response is_ambient limit).
Proof.
  intros Hsub. unfold rate_limited_response.
  repeat (apply answer_ok_set_header; [compute_done|]).
  apply answer_ok_error; [done|..]; eauto.
  apply Forall_forall. intros f Hf. apply Hsub in Hf.
  repeat (apply elem_of_cons in Hf as [->|Hf]); try done.
  by apply elem_of_nil in Hf.
Qed.

Lemma with_rate_headers_ok fields is_ambient remaining limit r :
  answer_ok fields r ->
  answer_ok fields (with_rate_headers is_ambient remaining limit r).
Proof.
  intros Hr. unfold with_rate_headers.
  by repeat (apply answer_ok_set_header; [compute_done|]).
Qed.

Lemma require_google_auth_ok fields (view_func : View) request :
  fields ⊆ ["events"; "match_result"] ->
  (forall request, returns (view_func request) (answer_ok fields)) ->
  returns (require_google_auth E view_func request) (answer_ok fields).
Proof.
  intros Hsub Hv. unfold require_google_auth.
  case_bool_decide; [done|].
  destruct (negb _); [by apply returns_ret, auth_error_ok|].
  destruct (_ || _); [by apply returns_ret, auth_error_ok|].
  apply returns_bind_any. intros userinfo.
  destruct (falsy_userinfo userinfo); [by apply returns_ret, auth_error_ok|].
  do 2 (apply returns_bind_any; intros ?).
  apply returns_bind_any. intros [[allowed remaining] limit].
  destruct allowed; simpl.
  - eapply returns_bind; [apply Hv|].
    intros r Hr. by apply returns_ret, with_rate_headers_ok.
  - by apply returns_ret, rate_limited_response_ok.
Qed.

Lemma urlpatterns_under_cors ep :
  urlpatterns E ep = cors_exempt (under_cors E ep).
Proof. by destruct ep. Qed.

Lemma under_cors_ok ep request :
  returns (under_cors E ep request) (answer_ok (data_fields ep)).
Proof.
  destruct ep; simpl.
  - apply require_google_auth_ok; [compute_done|]. intros r.
    apply require_http_methods_ok, extract_event_body_ok.
  - apply require_google_auth_ok; [compute_done|]. intros r.
    apply require_http_methods_ok, find_matches_body_ok.
  - apply require_http_methods_ok, health_check_body_ok.
  - apply require_http_methods_ok, check_profile_body_ok.
Qed.

Lemma allowed_origin_not_empty o : o ∈ ALLOWED_ORIGINS -> o <> "".
Proof.
  intros Hin ->. unfold ALLOWED_ORIGINS in Hin.
  repeat (apply elem_of_cons in Hin as [?|Hin]); try done.
  by apply elem_of_nil in Hin.
Qed.

(** [add_cors_headers] touches neither the status nor the body. *)
Lemma add_cors_headers_status r o :
  status_code (add_cors_headers r o) = status_code r.
Proof. destruct o as [o|]; [|done]. simpl. by case_bool_decide. Qed.

Lemma add_cors_headers_content r o :
  content (add_cors_headers r o) = content r.
Proof. destruct o as [o|]; [|done]. simpl. by case_bool_decide. Qed.

(** What [cors_exempt] returns is what [add_cors_headers] made of a
    response that had no CORS header and a well-formed body. *)
Lemma cors_exempt_inv ep request w resp w' :
  urlpatterns E ep request w = (Ret resp, w') ->
  exists r, answer_ok (data_fields ep) r
            /\ resp = add_cors_headers r (get_cors_origin request).
Proof.
  rewrite urlpatterns_under_cors. unfold cors_exempt.
  case_bool_decide as Hopt.
  - intros Heq. inversion Heq; subst. exists EmptyResponse.
    split; [|done]. split; [apply cors_free_empty|by left].
  - unfold mbind, M_bind.
    destruct (under_cors E ep request w) as [[r|e] w1] eqn:Hrun; [|done].
    intros Heq. inversion Heq; subst. exists r. split; [|done].
    by eapply under_cors_ok.
Qed.

End Answers.

(** ** Cross-origin headers *)

(** C6. Whatever an endpoint answers, the answer carries the CORS headers
    iff the request's [Origin] is, as a string, one of the four allowed
    origins: then [Access-Control-Allow-Origin] echoes it and the three
    other headers are set; for every other origin none of the four headers
    is present. *)
Theorem cors_headers_iff_allowed E ep request w resp w' :
  urlpatterns E ep request w = (Ret resp, w') ->
  (header_get request "Origin" ∈ ALLOWED_ORIGINS ->
     resp_headers resp !! "Access-Control-Allow-Origin"
       = Some (header_get request "Origin")
     /\ resp_headers resp !! "Access-Control-Allow-Methods"
       = Some "GET, POST, OPTIONS"
     /\ resp_headers resp !! "Access-Control-Allow-Headers"
       = Some "Content-Type, Authorization"
     /\ resp_headers resp !! "Access-Control-Expose-Headers"
       = Some "X-RateLimit-Remaining, X-RateLimit-Reset, X-RateLimit-Limit, X-Ambient-User")
  /\ (header_get request "Origin" ∉ ALLOWED_ORIGINS -> cors_free resp).
Proof.
  intros Hrun.
  destruct (cors_exempt_inv E ep request w resp w' Hrun) as (r & [Hfree _] & ->).
  unfold get_cors_origin. split; intros Horigin.
  - rewrite bool_decide_true by done. simpl.
    rewrite bool_decide_false by by apply allowed_origin_not_empty.
    simpl. by simplify_map_eq.
  - by rewrite bool_decide_false.
Qed.

Lemma cors_headers_iff_allowed_witness :
  exists resp w',
    urlpatterns unavailable_env HealthUrl
      (sample_request "GET" sample_token "https://www.messenger.com")
      empty_world = (Ret resp, w')
    /\ resp_headers resp !! "Access-Control-Allow-Origin"
       = Some "https://www.messenger.com".
Proof.
  eexists _, _.
  assert (urlpatterns unavailable_env HealthUrl
            (sample_request "GET" sample_token "https://www.messenger.com")
            empty_world
          = (Ret (add_cors_headers
                    (JsonResponse [ ("status", JStr "ok");
                                    ("api_configured", JBool true) ] 200)
                    (Some "https://www.messenger.com")), empty_world)) as Hrun
    by reflexivity.
  split; [exact Hrun|].
  refine (proj1 (proj1 (cors_headers_iff_allowed _ _ _ _ _ _ Hrun) _)).
  compute_done.
Defined.

(** Neither a subdomain nor another scheme of an allowed origin is allowed. *)
Example cors_no_subdomain_no_scheme_variant :
  get_cors_origin (sample_request "GET" sample_token "https://web.whatsapp.com")
    = Some "https://web.whatsapp.com"
  /\ get_cors_origin
       (sample_request "GET" sample_token "https://evil.web.whatsapp.com") = None
  /\ get_cors_origin
       (sample_request "GET" sample_token "http://web.whatsapp.com") = None
  /\ get_cors_origin
       (sample_request "GET" sample_token "https://web.whatsapp.com/") = None.
Proof. by vm_compute. Qed.

(** ** The error envelope *)

(** C8 (as amended). Every answer of an endpoint with an error status other
    than 405 carries the envelope: [success] is false, the endpoint's data
    field is null and [error] is a string.  The 405 of
    [require_http_methods] has an empty body. *)
Theorem error_answers_have_envelope E ep request w resp w' :
  urlpatterns E ep request w = (Ret resp, w') ->
  400 <= status_code resp ->
  (status_code resp <> 405 -> error_envelope (data_fields ep) resp)
  /\ (status_code resp = 405 -> content resp = None).
Proof.
  intros Hrun Hstatus.
  destruct (cors_exempt_inv E ep request w resp w' Hrun) as (r & [_ Hr] & ->).
  rewrite add_cors_headers_status in *.
  unfold error_envelope, body_field. rewrite add_cors_headers_content.
  destruct Hr as [H200|[[H405 Hempty]|[Hne Henv]]]; [lia|done|done].
Qed.

Lemma error_answers_have_envelope_witness :
  exists resp w',
    urlpatterns unavailable_env FindMatchesUrl
      (sample_request "POST" "short-token" "https://www.messenger.com")
      empty_world = (Ret resp, w')
    /\ 400 <= status_code resp
    /\ error_envelope ["match_result"] resp.
Proof.
  eexists _, _.
  assert (urlpatterns unavailable_env FindMatchesUrl
            (sample_request "POST" "short-token" "https://www.messenger.com")
            empty_world
          = (Ret (add_cors_headers (auth_error "Invalid token format")
                    (Some "https://www.messenger.com")), empty_world)) as Hrun
    by reflexivity.
  assert (400 <= status_code
                   (add_cors_headers (auth_error "Invalid token format")
                      (Some "https://www.messenger.com"))) as Hstatus
    by (vm_compute; discriminate).
  split; [exact Hrun|split; [exact Hstatus|]].
  apply (proj1 (error_answers_have_envelope _ _ _ _ _ _ Hrun Hstatus)).
  vm_compute. discriminate.
Defined.

(** C8 (as stated) fails on a request whose method the view does not
    allow: a GET to [extract_event] with a valid token is answered 405 with
    an empty body, in which neither [success] nor [error] can be read. *)
Lemma method_not_allowed_has_no_envelope :
  exists resp w',
    urlpatterns unavailable_env ExtractEventUrl
      (sample_request "GET" sample_token "https://www.messenger.com")
      empty_world = (Ret resp, w')
    /\ status_code resp = 405
    /\ content resp = None
    /\ body_field resp "success" = None
    /\ body_field resp "error" = None
    /\ ~ error_envelope (data_fields ExtractEventUrl) resp.
Proof.
  exists (add_cors_headers
            (with_rate_headers false 4 5
               (HttpResponseNotAllowed ["POST"; "OPTIONS"]))
            (Some "https://www.messenger.com")).
  eexists. split; [vm_compute; reflexivity|].
  split; [done|]. split; [done|]. split; [done|]. split; [done|].
  intros [Hs _]. discriminate Hs.
Qed.

(** ** Token verification *)

Section Tokens.

Context (E : Env).

Lemma bearer_startswith token :
  PyStr.startswith ("Bearer " +:+ token) "Bearer " = true.
Proof. unfold PyStr.startswith. cbn. by destruct token. Qed.

Lemma bearer_slice token : PyStr.slice_from 7 ("Bearer " +:+ token) = token.
Proof. reflexivity. Qed.

Lemma header_get_some request name value :
  req_headers request !! name = Some value -> header_get request name = value.
Proof. unfold header_get. by intros ->. Qed.

(** A token of fewer than 20 characters stops [require_google_auth] ... *)
Lemma require_google_auth_short_token view_func request token w :
  req_method request <> "OPTIONS" ->
  req_headers request !! "Authorization" = Some ("Bearer " +:+ token) ->
  PyStr.len token < 20 ->
  require_google_auth E view_func request w
    = (Ret (auth_error "Invalid token format"), w).
Proof.
  intros Hm Hauth Hlen. unfold require_google_auth.
  rewrite bool_decide_false by done.
  rewrite (header_get_some _ _ _ Hauth), bearer_startswith, bearer_slice.
  simpl. rewrite (bool_decide_true (_ < _)) by done.
  by rewrite orb_true_r.
Qed.

(** ... and [check_profile] alike, before either calls Google. *)
Lemma check_profile_short_token request token w :
  req_method request <> "OPTIONS" ->
  req_headers request !! "Authorization" = Some ("Bearer " +:+ token) ->
  PyStr.len token < 20 ->
  check_profile_body E request w
    = (Ret (profile_error "Invalid token format"), w).
Proof.
  intros Hm Hauth Hlen. unfold check_profile_body.
  rewrite bool_decide_false by done.
  rewrite (header_get_some _ _ _ Hauth), bearer_startswith, bearer_slice.
  simpl. rewrite (bool_decide_true (_ < _)) by done.
  by rewrite orb_true_r.
Qed.

End Tokens.

(** C3. A request whose bearer token has fewer than 20 characters never
    makes an endpoint call Google: the log of outbound calls, and the whole
    world, are left as they were; and wherever the endpoint gets as far as
    checking the token, the answer is the 401 "Invalid token format". *)
Theorem short_token_rejected_without_network E ep request token w :
  req_headers request !! "Authorization" = Some ("Bearer " +:+ token) ->
  PyStr.len token < 20 ->
  (urlpatterns E ep request w).2 = w
  /\ net_log (urlpatterns E ep request w).2 = net_log w
  /\ (reaches_verification ep (req_method request) = true ->
      exists resp,
        (urlpatterns E ep request w).1 = Ret resp
        /\ status_code resp = 401
        /\ body_field resp "success" = Some (JBool false)
        /\ body_field resp "error" = Some (JStr "Invalid token format")).
Proof.
  intros Hauth Hlen.
  cut ((urlpatterns E ep request w).2 = w
       /\ (reaches_verification ep (req_method request) = true ->
           exists resp,
             (urlpatterns E ep request w).1 = Ret resp
             /\ status_code resp = 401
             /\ body_field resp "success" = Some (JBool false)
             /\ body_field resp "error" = Some (JStr "Invalid token format"))).
  { intros [Hw Hr]. rewrite Hw. done. }
  rewrite urlpatterns_under_cors. unfold cors_exempt.
  destruct (decide (req_method request = "OPTIONS")) as [Hopt|Hopt].
  { rewrite bool_decide_true by done. split; [done|].
    rewrite Hopt. by destruct ep. }
  rewrite bool_decide_false by done. unfold mbind, M_bind.
  destruct ep; simpl under_cors.
  - rewrite (require_google_auth_short_token E _ _ token) by done.
    split; [done|]. intros _. eexists. split; [done|].
    unfold body_field.
    by rewrite add_cors_headers_status, add_cors_headers_content.
  - rewrite (require_google_auth_short_token E _ _ token) by done.
    split; [done|]. intros _. eexists. split; [done|].
    unfold body_field.
    by rewrite add_cors_headers_status, add_cors_headers_content.
  - unfold require_http_methods. by case_bool_decide.
  - unfold require_http_methods. case_bool_decide as Hin.
    + rewrite (check_profile_short_token E _ token) by done.
      split; [done|]. intros _. eexists. split; [done|].
      unfold body_field.
      by rewrite add_cors_headers_status, add_cors_headers_content.
    + split; [done|]. simpl. intros Hget.
      apply bool_decide_eq_true in Hget. rewrite Hget in Hin.
      exfalso. apply Hin. compute_done.
Qed.

Lemma short_token_rejected_without_network_witness :
  req_headers (sample_request "GET" "too-short" "https://web.whatsapp.com")
    !! "Authorization" = Some ("Bearer " +:+ "too-short")
  /\ PyStr.len "too-short" < 20
  /\ net_log (urlpatterns unavailable_env CheckProfileUrl
                (sample_request "GET" "too-short" "https://web.whatsapp.com")
                empty_world).2 = []
  /\ exists resp,
       (urlpatterns unavailable_env CheckProfileUrl
          (sample_request "GET" "too-short" "https://web.whatsapp.com")
          empty_world).1 = Ret resp
       /\ status_code resp = 401
       /\ body_field resp "success" = Some (JBool false)
       /\ body_field resp "error" = Some (JStr "Invalid token format").
Proof.
  assert (req_headers (sample_request "GET" "too-short" "https://web.whatsapp.com")
            !! "Authorization" = Some ("Bearer " +:+ "too-short")) as Hauth
    by reflexivity.
  assert (PyStr.len "too-short" < 20) as Hlen by (vm_compute; reflexivity).
  split; [exact Hauth|split; [exact Hlen|]].
  pose proof (short_token_rejected_without_network unavailable_env
                CheckProfileUrl _ _ empty_world Hauth Hlen) as (_ & Hlog & Hresp).
  split; [exact Hlog|]. apply Hresp. reflexivity.
Defined.

(** ** The match endpoint without calendar candidates *)

Section NoMatch.

Context (E : Env).

(** The steps of [require_google_auth] leave the upstream untouched. *)
Lemma verify_google_token_upstream token w r w1 :
  verify_google_token E token w = (r, w1) ->
  gemini_calls w1 = gemini_calls w /\ slept w1 = slept w.
Proof.
  unfold verify_google_token, try_except, mbind, M_bind, http_get, lift,
    mret, M_ret.
  intros Hrun.
  repeat (case_match; simplify_eq; simpl in *; try done).
Qed.

Lemma check_ambient_profile_world email w :
  (check_ambient_profile E email w).2 = w
  /\ exists b, (check_ambient_profile E email w).1 = Ret b.
Proof.
  unfold check_ambient_profile, try_except, lift, mret, M_ret.
  case_bool_decide; simpl; [eauto|].
  destruct (CustomUser_email_exists E email); simpl; eauto.
Qed.

Lemma check_rate_limit_upstream user_id amb w r w1 :
  check_rate_limit user_id amb w = (r, w1) ->
  gemini_calls w1 = gemini_calls w /\ slept w1 = slept w.
Proof.
  unfold check_rate_limit, mbind, M_bind, cache_get, cache_set, mret, M_ret.
  intros Hrun.
  repeat (case_match; simplify_eq; simpl in *; try done).
Qed.

(** A request that [validate_match_request] accepts is a dict with an
    event and a list of calendar events. *)
Lemma validate_match_request_shape data err :
  Validators.validate_match_request data = (true, err) ->
  exists m event events,
    data = JDict m /\ m !! "event" = Some event
    /\ m !! "calendar_events" = Some (JList events).
Proof.
  unfold Validators.validate_match_request, Validators.invalid,
    Validators.has_key, Validators.dict_get.
  destruct data as [| | | | | |m]; try done.
  repeat case_bool_decide; simpl; try done.
  destruct (m !! "event") as [event|] eqn:Hev;
    [|by exfalso; eapply is_Some_None].
  destruct (m !! "calendar_events") as [[| | | | |events|]|] eqn:Hcal;
    simpl; try done.
  intros _. by exists m, event, events.
Qed.

(** The view itself: on a valid request without calendar candidates it
    answers at once. *)
Lemma find_matches_body_empty request data err is_ambient w :
  json_loads E (req_body request) = Ret data ->
  Validators.validate_match_request data = (true, err) ->
  py_getitem data "calendar_events" = Ret (JList []) ->
  req_is_ambient_user request = Some is_ambient ->
  find_matches_body E request w
    = (Ret (JsonResponse [ ("success", JBool true);
                           ("match_result", no_match_result);
                           ("error", JNull);
                           ("is_ambient_user", JBool is_ambient) ] 200), w).
Proof.
  intros Hload Hvalid Hcal Hamb.
  destruct (validate_match_request_shape _ _ Hvalid)
    as (m & event & events & -> & Hev & Hevs).
  unfold find_matches_body, try_except, parse_body, try_except_if,
    try_except, mbind, M_bind, lift, mret, M_ret.
  rewrite Hload. simpl. rewrite Hvalid. simpl.
  rewrite Hev. simpl in Hcal. rewrite Hevs in Hcal. simplify_eq.
  rewrite Hevs. simpl.
  unfold get_is_ambient_user. by rewrite Hamb.
Qed.

End NoMatch.

(** C7 (as amended). A POST to [find_matches] whose token Google verifies,
    whose subject the rate limiter lets through, and whose body is a valid match
    request with an empty [calendar_events] list, is answered 200 with the
    fixed no_match result and a null error, and the upstream is not called
    (nor is anything slept). *)
Theorem empty_calendar_no_match
    E request token userinfo user_id is_ambient remaining limit data err
    w w1 w2 w3 :
  req_method request = "POST" ->
  req_headers request !! "Authorization" = Some ("Bearer " +:+ token) ->
  20 <= PyStr.len token ->
  verify_google_token E token w = (Ret (Some userinfo), w1) ->
  userinfo !! "sub" = Some user_id ->
  check_ambient_profile E (default "" (userinfo !! "email")) w1
    = (Ret is_ambient, w2) ->
  check_rate_limit user_id is_ambient w2 = (Ret (true, remaining, limit), w3) ->
  json_loads E (req_body request) = Ret data ->
  Validators.validate_match_request data = (true, err) ->
  py_getitem data "calendar_events" = Ret (JList []) ->
  exists resp,
    find_matches E request w = (Ret resp, w3)
    /\ status_code resp = 200
    /\ body_field resp "success" = Some (JBool true)
    /\ body_field resp "match_result" = Some no_match_result
    /\ body_field resp "error" = Some JNull
    /\ gemini_calls w3 = gemini_calls w
    /\ slept w3 = slept w.
Proof.
  intros Hpost Hauth Hlen Hverify Hsub Hprofile Hrate Hload Hvalid Hcal.
  assert (token <> "") as Hne by (intros ->; vm_compute in Hlen; done).
  assert (userinfo <> ∅) as Hinfo by (intros ->; by rewrite lookup_empty in Hsub).
  eexists. split.
  - unfold find_matches, csrf_exempt, cors_exempt.
    rewrite bool_decide_false by (rewrite Hpost; done).
    unfold mbind at 1, M_bind at 1. unfold require_google_auth.
    rewrite bool_decide_false by (rewrite Hpost; done).
    rewrite (header_get_some _ _ _ Hauth), bearer_startswith, bearer_slice.
    cbn [negb]. rewrite (bool_decide_false (token = "")) by done.
    rewrite (bool_decide_false (_ < _)) by lia. cbn [orb].
    unfold mbind at 1, M_bind at 1. rewrite Hverify.
    cbn [falsy_userinfo]. rewrite (bool_decide_false (userinfo = ∅)) by done.
    cbn [default from_option id]. rewrite Hsub.
    unfold mbind at 1, M_bind at 1. unfold lift at 1.
    unfold mbind at 1, M_bind at 1. rewrite Hprofile.
    unfold mbind at 1, M_bind at 1. rewrite Hrate. cbn [negb].
    unfold mbind at 1, M_bind at 1. unfold require_http_methods.
    rewrite bool_decide_true by (simpl; rewrite Hpost; compute_done).
    erewrite find_matches_body_empty by done.
    reflexivity.
  - destruct (verify_google_token_upstream E _ _ _ _ Hverify) as [Hg1 Hs1].
    pose proof (check_ambient_profile_world E
                  (default "" (userinfo !! "email")) w1) as [Hw2 _].
    rewrite Hprofile in Hw2. simpl in Hw2. subst w2.
    destruct (check_rate_limit_upstream _ _ _ _ _ Hrate) as [Hg3 Hs3].
    unfold body_field.
    rewrite add_cors_headers_status, add_cors_headers_content.
    repeat split; try done; congruence.
Qed.

Lemma empty_calendar_no_match_witness :
  req_method (sample_request "POST" sample_token "https://web.whatsapp.com")
    = "POST"
  /\ req_headers (sample_request "POST" sample_token "https://web.whatsapp.com")
       !! "Authorization" = Some ("Bearer " +:+ sample_token)
  /\ 20 <= PyStr.len sample_token
  /\ verify_google_token unavailable_env sample_token empty_world
     = (Ret (Some sample_userinfo), verified_world)
  /\ sample_userinfo !! "sub" = Some "u1"
  /\ check_ambient_profile unavailable_env
       (default "" (sample_userinfo !! "email")) verified_world
     = (Ret false, verified_world)
  /\ check_rate_limit "u1" false verified_world
     = (Ret (true, 4, 5), allowed_world)
  /\ json_loads unavailable_env
       (req_body (sample_request "POST" sample_token "https://web.whatsapp.com"))
     = Ret empty_match_data
  /\ Validators.validate_match_request empty_match_data = (true, None)
  /\ py_getitem empty_match_data "calendar_events" = Ret (JList [])
  /\ exists resp,
       find_matches unavailable_env
         (sample_request "POST" sample_token "https://web.whatsapp.com")
         empty_world = (Ret resp, allowed_world)
       /\ status_code resp = 200
       /\ body_field resp "success" = Some (JBool true)
       /\ body_field resp "match_result" = Some no_match_result
       /\ body_field resp "error" = Some JNull
       /\ gemini_calls allowed_world = gemini_calls empty_world
       /\ slept allowed_world = slept empty_world.
Proof.
  assert (req_method
            (sample_request "POST" sample_token "https://web.whatsapp.com")
          = "POST") as H1 by reflexivity.
  assert (req_headers
            (sample_request "POST" sample_token "https://web.whatsapp.com")
            !! "Authorization" = Some ("Bearer " +:+ sample_token)) as H2
    by reflexivity.
  assert (20 <= PyStr.len sample_token) as H3 by (vm_compute; discriminate).
  assert (verify_google_token unavailable_env sample_token empty_world
          = (Ret (Some sample_userinfo), verified_world)) as H4
    by (vm_compute; reflexivity).
  assert (sample_userinfo !! "sub" = Some "u1") as H5 by reflexivity.
  assert (check_ambient_profile unavailable_env
            (default "" (sample_userinfo !! "email")) verified_world
          = (Ret false, verified_world)) as H6 by reflexivity.
  assert (check_rate_limit "u1" false verified_world
          = (Ret (true, 4, 5), allowed_world)) as H7
    by (vm_compute; reflexivity).
  assert (json_loads unavailable_env
            (req_body
               (sample_request "POST" sample_token "https://web.whatsapp.com"))
          = Ret empty_match_data) as H8 by reflexivity.
  assert (Validators.validate_match_request empty_match_data = (true, None))
    as H9 by (vm_compute; reflexivity).
  assert (py_getitem empty_match_data "calendar_events" = Ret (JList []))
    as H10 by reflexivity.
  repeat (split; [assumption|]).
  exact (empty_calendar_no_match unavailable_env _ _ _ _ _ _ _ _ _ _ _ _ _
           H1 H2 H3 H4 H5 H6 H7 H8 H9 H10).
Defined.

(** C7 (as stated) fails on a subject that has used up the quota: the
    token is verified and the request is a valid match request with no
    calendar candidate, yet the answer is the 429 of the rate limiter, with
    a null [match_result]. *)
Lemma empty_calendar_rate_limited :
  (verify_google_token unavailable_env sample_token exhausted_world).1
    = Ret (Some sample_userinfo)
  /\ json_loads unavailable_env
       (req_body (sample_request "POST" sample_token "https://web.whatsapp.com"))
     = Ret empty_match_data
  /\ Validators.validate_match_request empty_match_data = (true, None)
  /\ py_getitem empty_match_data "calendar_events" = Ret (JList [])
  /\ (find_matches unavailable_env
        (sample_request "POST" sample_token "https://web.whatsapp.com")
        exhausted_world).1
     = Ret (add_cors_headers (rate_limited_response false 5)
              (Some "https://web.whatsapp.com"))
  /\ status_code (add_cors_headers (rate_limited_response false 5)
                    (Some "https://web.whatsapp.com")) = 429
  /\ body_field (add_cors_headers (rate_limited_response false 5)
                   (Some "https://web.whatsapp.com")) "success"
     = Some (JBool false)
  /\ body_field (add_cors_headers (rate_limited_response false 5)
                   (Some "https://web.whatsapp.com")) "match_result"
     = Some JNull.
Proof. repeat split; vm_compute; reflexivity. Qed.

(** ** Email masking in check_profile *)

Section Masking.

Context (E : Env).

Lemma mask_email_empty_local domain :
  mask_email ("@" +:+ domain)
    = Raise (Exn IndexErrorC "string index out of range").
Proof.
  unfold mask_email.
  assert (PyStr.str_in "@" ("@" +:+ domain) = true) as ->.
  { unfold PyStr.str_in. cbn. by destruct domain. }
  change ("@" +:+ domain) with (String "@" domain).
  rewrite (bool_decide_false (String "@" domain = "")) by discriminate.
  cbn. rewrite (bool_decide_true ("@"%char = "@"%char)) by done. cbn.
  rewrite (bool_decide_false (PyStr.len "" > 3)) by (vm_compute; discriminate).
  done.
Qed.

Lemma at_in_local_cons c local :
  PyStr.str_in "@" (String c local) = false ->
  c <> "@"%char /\ PyStr.str_in "@" local = false.
Proof.
  change (PyStr.str_in "@" (String c local))
    with ((if Ascii.ascii_dec "@" c then String.prefix "" local else false)
          || PyStr.str_in "@" local).
  destruct (Ascii.ascii_dec "@" c) as [<-|Hne].
  - by destruct local.
  - intros Hin. split; [congruence|done].
Qed.

Lemma at_in_address local domain :
  PyStr.str_in "@" (local +:+ String "@" domain) = true.
Proof.
  induction local as [|c local IH].
  - unfold PyStr.str_in. cbn. by destruct domain.
  - change (String c local +:+ String "@" domain)
      with (String c (local +:+ String "@" domain)).
    unfold PyStr.str_in. fold PyStr.str_in. rewrite IH.
    by rewrite orb_true_r.
Qed.

Lemma split_once_address local domain :
  PyStr.str_in "@" local = false ->
  PyStr.split_once "@" (local +:+ String "@" domain) = (local, domain).
Proof.
  induction local as [|c local IH]; intros Hno.
  - change ("" +:+ String "@" domain) with (String "@" domain).
    cbn. by rewrite bool_decide_true.
  - apply at_in_local_cons in Hno as [Hc Hno].
    change (String c local +:+ String "@" domain)
      with (String c (local +:+ String "@" domain)).
    cbn. rewrite bool_decide_false by done. by rewrite IH.
Qed.

(** With a local part that is not empty the masking step does what it is
    meant to: three characters of a local part longer than three, one
    character of a shorter one, then the stars and the whole domain. *)
Lemma mask_email_nonempty_local local domain :
  local <> "" ->
  PyStr.str_in "@" local = false ->
  mask_email (local +:+ String "@" domain)
    = Ret ((if bool_decide (PyStr.len local > 3) then PyStr.slice_to 3 local
            else PyStr.slice_to 1 local) +:+ "***@" +:+ domain).
Proof.
  intros Hne Hno. unfold mask_email.
  rewrite at_in_address, split_once_address by done.
  rewrite bool_decide_false by (by destruct local).
  cbn [negb andb]. case_bool_decide; [done|].
  by destruct local.
Qed.

End Masking.

(** C9. On the two addresses of the specification the masking step gives
    the two masked addresses; on an address whose local part is empty it
    raises where a masked address was due. *)
Theorem mask_email_examples :
  mask_email "ab@x.com" = Ret "a***@x.com"
  /\ mask_email "abcdef@x.com" = Ret "abc***@x.com"
  /\ mask_email "abc@x.com" = Ret "a***@x.com"
  /\ answer_field
       (check_profile unavailable_env
          (sample_request "GET" sample_token "https://web.whatsapp.com")
          empty_world) "email" = Some (JStr "a***@x.com")
  /\ answer_field
       (check_profile long_local_env
          (sample_request "GET" sample_token "https://web.whatsapp.com")
          empty_world) "email" = Some (JStr "abc***@x.com")
  /\ PyStr.str_in "@" "@x.com" = true
  /\ mask_email "@x.com" = Raise (Exn IndexErrorC "string index out of range")
  /\ (check_profile empty_local_env
        (sample_request "GET" sample_token "https://web.whatsapp.com")
        empty_world).1
     = Raise (Exn IndexErrorC "string index out of range").
Proof. repeat split; vm_compute; reflexivity. Qed.

(** C10. The masking step of [check_profile] is not total: when Google
    verifies the token and reports an email that contains an at sign but
    has nothing before it, [check_profile] raises [IndexError] and returns
    no response at all. *)
Theorem check_profile_empty_local_part_raises
    E request token userinfo domain w w1 :
  req_method request = "GET" ->
  req_headers request !! "Authorization" = Some ("Bearer " +:+ token) ->
  20 <= PyStr.len token ->
  verify_google_token E token w = (Ret (Some userinfo), w1) ->
  userinfo !! "email" = Some ("@" +:+ domain) ->
  PyStr.str_in "@" ("@" +:+ domain) = true
  /\ check_profile E request w
     = (Raise (Exn IndexErrorC "string index out of range"), w1).
Proof.
  intros Hget Hauth Hlen Hverify Hemail.
  split; [apply (at_in_address "" domain)|].
  assert (token <> "") as Hne by (intros ->; vm_compute in Hlen; done).
  assert (userinfo <> ∅) as Hinfo
    by (intros ->; by rewrite lookup_empty in Hemail).
  unfold check_profile, csrf_exempt, cors_exempt.
  rewrite bool_decide_false by (rewrite Hget; done).
  unfold mbind at 1, M_bind at 1. unfold require_http_methods.
  rewrite bool_decide_true by (rewrite Hget; compute_done).
  unfold check_profile_body.
  rewrite bool_decide_false by (rewrite Hget; done).
  rewrite (header_get_some _ _ _ Hauth), bearer_startswith, bearer_slice.
  cbn [negb]. rewrite (bool_decide_false (token = "")) by done.
  rewrite (bool_decide_false (_ < _)) by lia. cbn [orb].
  unfold mbind at 1, M_bind at 1. rewrite Hverify.
  cbn [falsy_userinfo]. rewrite (bool_decide_false (userinfo = ∅)) by done.
  cbn [default from_option id]. rewrite Hemail.
  cbn [default from_option id].
  unfold mbind at 1, M_bind at 1. unfold lift at 1.
  by rewrite mask_email_empty_local.
Qed.

Lemma check_profile_empty_local_part_raises_witness :
  req_method (sample_request "GET" sample_token "https://web.whatsapp.com")
    = "GET"
  /\ req_headers (sample_request "GET" sample_token "https://web.whatsapp.com")
       !! "Authorization" = Some ("Bearer " +:+ sample_token)
  /\ 20 <= PyStr.len sample_token
  /\ verify_google_token empty_local_env sample_token empty_world
     = (Ret (Some (<["sub" := "u1"]> (<["email" := "@x.com"]> ∅))),
        verified_world)
  /\ (<["sub" := "u1"]> (<["email" := "@x.com"]> ∅) : gmap string string)
       !! "email" = Some ("@" +:+ "x.com")
  /\ check_profile empty_local_env
       (sample_request "GET" sample_token "https://web.whatsapp.com")
       empty_world
     = (Raise (Exn IndexErrorC "string index out of range"), verified_world).
Proof.
  assert (req_method
            (sample_request "GET" sample_token "https://web.whatsapp.com")
          = "GET") as H1 by reflexivity.
  assert (req_headers
            (sample_request "GET" sample_token "https://web.whatsapp.com")
            !! "Authorization" = Some ("Bearer " +:+ sample_token)) as H2
    by reflexivity.
  assert (20 <= PyStr.len sample_token) as H3 by (vm_compute; discriminate).
  assert (verify_google_token empty_local_env sample_token empty_world
          = (Ret (Some (<["sub" := "u1"]> (<["email" := "@x.com"]> ∅))),
             verified_world)) as H4 by (vm_compute; reflexivity).
  assert ((<["sub" := "u1"]> (<["email" := "@x.com"]> ∅) : gmap string string)
            !! "email" = Some ("@" +:+ "x.com")) as H5 by reflexivity.
  repeat (split; [assumption|]).
  exact (proj2 (check_profile_empty_local_part_raises empty_local_env
                  _ _ _ _ _ _ H1 H2 H3 H4 H5)).
Defined.

(** * Further properties of the code *)

(** ** check_rate_limit *)

Lemma ratelimit_key_inj a b : ratelimit_key a = ratelimit_key b -> a = b.
Proof. unfold ratelimit_key. intros H. cbn in H. by simplify_eq. Qed.

(** What an allowed call leaves in the cache. *)
Lemma allowed_call_stores user_id amb w remaining limit w' :
  check_rate_limit user_id amb w = (Ret (true, remaining, limit), w') ->
  cache w' !! ratelimit_key user_id
    = Some (limit - remaining, now w + RATE_LIMIT_WINDOW)
  /\ limit = rate_limit_of amb
  /\ 0 <= remaining.
Proof.
  unfold check_rate_limit, mbind, M_bind, mret, M_ret, cache_get, cache_set.
  destruct w as [ch t nl g sl]; simpl.
  destruct (ch !! ratelimit_key user_id) as [[v e]|]; simpl;
    repeat (case_bool_decide; simpl); intros; simplify_eq; simpl;
    rewrite lookup_insert_eq; (split; [eq_arith|split; [done|lia]]).
Qed.

(** X1. Counters of distinct subjects are independent: a call for one
    subject leaves the stored counter of any other subject, and the count
    it reads at any instant, as they were. *)
Theorem rate_limit_subjects_independent a b amb w :
  a <> b ->
  cache (check_rate_limit a amb w).2 !! ratelimit_key b
    = cache w !! ratelimit_key b
  /\ forall t, count_at b t (check_rate_limit a amb w).2 = count_at b t w.
Proof.
  intros Hne.
  assert (ratelimit_key a <> ratelimit_key b) as Hkey
    by (intros Heq; by apply Hne, ratelimit_key_inj).
  assert (cache (check_rate_limit a amb w).2 !! ratelimit_key b
          = cache w !! ratelimit_key b) as Hsame.
  { unfold check_rate_limit, mbind, M_bind, mret, M_ret, cache_get, cache_set.
    destruct (cache w !! ratelimit_key a) as [[c e]|];
      repeat (case_bool_decide; simpl); try done;
      by rewrite lookup_insert_ne. }
  split; [done|].
  intros t. unfold count_at, cache_get. simpl. rewrite Hsame.
  by repeat case_match.
Qed.

Lemma rate_limit_subjects_independent_witness :
  "u1" <> "u2"
  /\ cache (check_rate_limit "u1" false empty_world).2 !! ratelimit_key "u2"
     = cache empty_world !! ratelimit_key "u2"
  /\ forall t,
       count_at "u2" t (check_rate_limit "u1" false empty_world).2
       = count_at "u2" t empty_world.
Proof.
  assert ("u1" <> "u2") as Hne by discriminate.
  split; [exact Hne|].
  exact (rate_limit_subjects_independent "u1" "u2" false empty_world Hne).
Defined.

(** X2. An allowed call stores the count it answers for, [limit - remaining],
    and makes it expire one full window after the call, whatever expiry the
    counter had before. *)
Theorem rate_limit_allowed_call_stores user_id amb w remaining limit w' :
  check_rate_limit user_id amb w = (Ret (true, remaining, limit), w') ->
  cache w' !! ratelimit_key user_id
    = Some (limit - remaining, now w + RATE_LIMIT_WINDOW)
  /\ limit = rate_limit_of amb
  /\ 0 <= remaining.
Proof. apply allowed_call_stores. Qed.

Lemma rate_limit_allowed_call_stores_witness :
  check_rate_limit "u1" true empty_world
    = (Ret (true, 9, 10),
       set_cache (<[ratelimit_key "u1" := (1, RATE_LIMIT_WINDOW)]> ∅) empty_world)
  /\ cache (set_cache (<[ratelimit_key "u1" := (1, RATE_LIMIT_WINDOW)]> ∅)
              empty_world) !! ratelimit_key "u1"
     = Some (10 - 9, now empty_world + RATE_LIMIT_WINDOW).
Proof.
  assert (check_rate_limit "u1" true empty_world
          = (Ret (true, 9, 10),
             set_cache (<[ratelimit_key "u1" := (1, RATE_LIMIT_WINDOW)]> ∅)
                       empty_world)) as Hrun by (vm_compute; reflexivity).
  split; [exact Hrun|].
  exact (proj1 (rate_limit_allowed_call_stores _ _ _ _ _ _ Hrun)).
Defined.

(** X3. Once a full window has passed since a subject's last allowed call,
    its next call is answered as the first call of a new window, on either
    tier. *)
Theorem rate_limit_recovers user_id amb amb' w remaining limit w' t :
  check_rate_limit user_id amb w = (Ret (true, remaining, limit), w') ->
  now w + RATE_LIMIT_WINDOW <= t ->
  (check_rate_limit user_id amb' (at_time t w')).1
    = Ret (true, rate_limit_of amb' - 1, rate_limit_of amb').
Proof.
  intros Hrun Ht.
  destruct (allowed_call_stores user_id amb w remaining limit w' Hrun)
    as [Hstored _].
  pose proof (rate_limit_of_pos amb') as Hpos.
  unfold check_rate_limit, mbind, M_bind, mret, M_ret, cache_get, cache_set.
  simpl. rewrite Hstored.
  rewrite (bool_decide_false (t < _)) by lia.
  rewrite bool_decide_false by lia. simpl. eq_arith.
Qed.

Lemma rate_limit_recovers_witness :
  check_rate_limit "u1" false exhausted_world_minus_one
    = (Ret (true, 0, 5), exhausted_world)
  /\ now exhausted_world_minus_one + RATE_LIMIT_WINDOW <= 86400
  /\ (check_rate_limit "u1" false (at_time 86399 exhausted_world)).1
     = Ret (false, 0, 5)
  /\ (check_rate_limit "u1" false (at_time 86400 exhausted_world)).1
     = Ret (true, rate_limit_of false - 1, rate_limit_of false).
Proof.
  assert (check_rate_limit "u1" false exhausted_world_minus_one
          = (Ret (true, 0, 5), exhausted_world)) as Hrun
    by (vm_compute; reflexivity).
  assert (now exhausted_world_minus_one + RATE_LIMIT_WINDOW <= 86400) as Ht
    by (vm_compute; discriminate).
  split; [exact Hrun|split; [exact Ht|split; [vm_compute; reflexivity|]]].
  exact (rate_limit_recovers "u1" false false _ _ _ _ 86400 Hrun Ht).
Defined.

(** One call keeps the counter between 1 and the limit and answers with a
    remaining quota in range. *)
Lemma check_rate_limit_within user_id amb w :
  counter_within user_id (rate_limit_of amb) w ->
  counter_within user_id (rate_limit_of amb) (check_rate_limit user_id amb w).2
  /\ answer_in_range (rate_limit_of amb) (check_rate_limit user_id amb w).1.
Proof.
  pose proof (rate_limit_of_pos amb) as Hpos.
  unfold counter_within, answer_in_range, check_rate_limit, mbind, M_bind,
    mret, M_ret, cache_get, cache_set.
  destruct w as [ch t nl g sl]; simpl.
  destruct (ch !! ratelimit_key user_id) as [[c e]|] eqn:Hc; simpl;
    repeat (case_bool_decide; simpl); rewrite ?Hc, ?lookup_insert_eq;
    intros Hin; (split; [lia|]); eexists _, _; (split; [reflexivity|lia]).
Qed.

(** X4. Whatever the instants of a subject's calls, and whether or not the
    counter expires between them, the stored count stays between 1 and the
    limit of the tier and every answer carries a remaining quota between 0
    and [limit - 1]. *)
Theorem rate_limit_counter_bounded user_id amb ts : forall w,
  counter_within user_id (rate_limit_of amb) w ->
  Forall (answer_in_range (rate_limit_of amb)) (calls_at user_id amb ts w).1
  /\ counter_within user_id (rate_limit_of amb) (calls_at user_id amb ts w).2.
Proof.
  induction ts as [|t ts IH]; intros w Hw; [by split|].
  simpl calls_at.
  pose proof (check_rate_limit_within user_id amb (at_time t w) Hw) as [Hw1 Hr].
  destruct (check_rate_limit user_id amb (at_time t w)) as [r w1].
  specialize (IH w1 Hw1).
  destruct (calls_at user_id amb ts w1) as [rs w2].
  simpl in *. destruct IH as [Hrs Hw2]. split; [by constructor|done].
Qed.

Lemma rate_limit_counter_bounded_witness :
  counter_within "u1" (rate_limit_of false) empty_world
  /\ Forall (answer_in_range (rate_limit_of false))
       (calls_at "u1" false [0; 5; 90000; 90001; 90002; 90003; 90004; 90005]
          empty_world).1
  /\ counter_within "u1" (rate_limit_of false)
       (calls_at "u1" false [0; 5; 90000; 90001; 90002; 90003; 90004; 90005]
          empty_world).2.
Proof.
  assert (counter_within "u1" (rate_limit_of false) empty_world) as H0
    by exact I.
  split; [exact H0|].
  exact (rate_limit_counter_bounded "u1" false _ empty_world H0).
Defined.

(** ** verify_google_token *)


(** What a run of [verify_google_token] leaves behind. *)
Lemma verify_google_token_frame E token w :
  exists r w',
    verify_google_token E token w = (Ret r, w')
    /\ cache w' = cache w /\ now w' = now w
    /\ gemini_calls w' = gemini_calls w /\ slept w' = slept w
    /\ (net_log w' = (net_log w ++ [UserinfoCall token])%list
        \/ (net_log w'
              = (net_log w ++ [UserinfoCall token; TokeninfoCall token])%list
            /\ exists uresp userinfo,
                 requests_get E (UserinfoCall token) = Ret uresp
                 /\ net_status uresp = 200
                 /\ net_json uresp = Ret userinfo
                 /\ is_Some (userinfo !! "sub"))).
Proof.
  unfold verify_google_token, try_except, mbind, M_bind, http_get, lift,
    mret, M_ret.
  destruct (requests_get E (UserinfoCall token)) as [uresp|e] eqn:Hu; simpl;
    [|eexists _, _; repeat split; by left].
  case_bool_decide as Hus; simpl; [eexists _, _; repeat split; by left|].
  destruct (net_json uresp) as [u|e] eqn:Huj; simpl;
    [|eexists _, _; repeat split; by left].
  case_bool_decide as Hsub; simpl; [eexists _, _; repeat split; by left|].
  assert (exists u0 userinfo,
            Ret uresp = Ret u0
            /\ net_status u0 = 200
            /\ net_json u0 = Ret userinfo
            /\ is_Some (userinfo !! "sub")) as Hinfo.
  { exists uresp, u. repeat split; try done.
    destruct (u !! "sub"); [by eexists|done]. }
  assert (forall l, ((l ++ [UserinfoCall token]) ++ [TokeninfoCall token])%list
                    = (l ++ [UserinfoCall token; TokeninfoCall token])%list)
    as Happ by (intros l; by rewrite <- app_assoc).
  destruct (requests_get E (TokeninfoCall token)) as [tresp|e] eqn:Ht; simpl;
    [|eexists _, _; repeat split; simpl; right; by rewrite Happ; split].
  case_bool_decide as Hts; simpl;
    [eexists _, _; repeat split; simpl; right; by rewrite Happ; split|].
  destruct (net_json tresp) as [ti|e] eqn:Htj; simpl;
    [|eexists _, _; repeat split; simpl; right; by rewrite Happ; split].
  case_bool_decide as Haud; simpl;
    eexists _, _; repeat split; simpl; right; by rewrite Happ; split.
Qed.

(** X6. [verify_google_token] never raises, whatever the two endpoints do
    (a timeout, another exception, a body that is not JSON): it returns.
    It leaves the cache and the clock alone, calls the userinfo endpoint
    once, and calls the tokeninfo endpoint after it only if userinfo
    answered 200 with a [sub]. *)
Theorem verify_google_token_returns E token w :
  exists r w',
    verify_google_token E token w = (Ret r, w')
    /\ cache w' = cache w /\ now w' = now w
    /\ gemini_calls w' = gemini_calls w /\ slept w' = slept w
    /\ (net_log w' = (net_log w ++ [UserinfoCall token])%list
        \/ (net_log w'
              = (net_log w ++ [UserinfoCall token; TokeninfoCall token])%list
            /\ exists uresp userinfo,
                 requests_get E (UserinfoCall token) = Ret uresp
                 /\ net_status uresp = 200
                 /\ net_json uresp = Ret userinfo
                 /\ is_Some (userinfo !! "sub"))).
Proof. apply verify_google_token_frame. Qed.


(** ** call_gemini_with_retry *)

Section RetryMore.

Context (E : Env).
Context (client model_name prompt : string) (config : gmap string string).

Local Notation "'answer' g" :=
  (generate_content E g client model_name prompt config)
  (at level 10, g at level 9, only parsing).

(** One round of the loop whose attempt returns a text without in-band
    error (or no text): the text is returned at once. *)
Lemma retry_loop_return max_retries attempt rest w text :
  answer (gemini_calls w) = Ret text ->
  inband_error text = false ->
  retry_loop E client model_name prompt config max_retries (attempt :: rest) w
    = (Ret text, count_gemini_call w).
Proof.
  intros Hans Hclean. simpl.
  unfold mbind, M_bind, try_except, call_generate, mret, M_ret.
  rewrite Hans. simpl.
  destruct text as [t|]; [|done]. simpl in Hclean.
  destruct (negb (bool_decide (t = ""))); simpl in *; [|done].
  apply orb_false_iff in Hclean as [-> ->]. done.
Qed.

(** A round whose attempt settles the matter, one way or the other. *)
Lemma retry_loop_settled max_retries attempt rest w :
  transient_attempt (answer (gemini_calls w)) = false ->
  retry_loop E client model_name prompt config max_retries (attempt :: rest) w
    = (answer (gemini_calls w), count_gemini_call w).
Proof.
  intros Hsettled.
  destruct (answer (gemini_calls w)) as [text|e] eqn:Hans.
  - by apply retry_loop_return.
  - by apply retry_loop_reraise.
Qed.

Lemma retry_loop_recovers (n : nat) : forall (k a : nat) w,
  (a + k < n)%nat ->
  (forall i, (i < k)%nat ->
     transient_attempt (answer (gemini_calls w + i)) = true) ->
  transient_attempt (answer (gemini_calls w + k)) = false ->
  exists w',
    retry_loop E client model_name prompt config (Z.of_nat n)
               (Z.of_nat <$> seq a (n - a)) w
      = (answer (gemini_calls w + k), w')
    /\ gemini_calls w' = S (gemini_calls w + k)
    /\ slept w' = (slept w ++ backoff a k)%list
    /\ cache w' = cache w /\ net_log w' = net_log w.
Proof.
  induction k as [|k IH]; intros a w Hlt Htr Hsettled.
  - rewrite Nat.add_0_r in *.
    destruct (n - a)%nat as [|m] eqn:Hm; [lia|].
    exists (count_gemini_call w). split.
    + simpl fmap. by apply retry_loop_settled.
    + unfold backoff. simpl. by rewrite app_nil_r.
  - destruct (n - a)%nat as [|m] eqn:Hm; [lia|].
    assert (m = n - S a)%nat as -> by lia.
    destruct (n - S a)%nat as [|m'] eqn:Hm'; [lia|].
    pose proof (Htr 0%nat ltac:(lia)) as Htr0.
    rewrite Nat.add_0_r in Htr0.
    change (Z.of_nat <$> seq a (S (S m')))
      with (Z.of_nat a :: (Z.of_nat <$> seq (S a) (S m'))).
    rewrite retry_loop_transient_step; [|done|done|intros _; lia].
    rewrite <- Hm'.
    destruct (IH (S a) (log_sleep (Z.of_nat a + 1) (count_gemini_call w)))
      as (w' & Hrun & Hg & Hs & Hc & Hn); [lia| | |].
    { intros i Hi. specialize (Htr (S i) ltac:(lia)).
      simpl. by rewrite Nat.add_succ_r in Htr. }
    { simpl. by rewrite Nat.add_succ_r in Hsettled. }
    exists w'. simpl in *. split.
    + rewrite Hrun. by rewrite Nat.add_succ_r.
    + repeat split; [lia| |done..].
      rewrite Hs. unfold backoff. simpl. by rewrite <- app_assoc.
Qed.

(** The loop never calls more often than it has attempts, pauses once per
    transient attempt, and touches neither the cache nor the outbound log. *)
Lemma retry_loop_bounded max_retries : forall (m a : nat) w,
  exists k,
    let w' := (retry_loop E client model_name prompt config max_retries
                 (Z.of_nat <$> seq a m) w).2 in
    (k <= m)%nat
    /\ slept w' = (slept w ++ backoff a k)%list
    /\ (gemini_calls w + k <= gemini_calls w')%nat
    /\ (gemini_calls w' <= gemini_calls w + m)%nat
    /\ (gemini_calls w' <= S (gemini_calls w + k))%nat
    /\ cache w' = cache w /\ net_log w' = net_log w.
Proof.
  induction m as [|m IH]; intros a w.
  { exists 0%nat. unfold backoff. simpl. rewrite app_nil_r, Nat.add_0_r.
    repeat split; lia. }
  change (Z.of_nat <$> seq a (S m))
    with (Z.of_nat a :: (Z.of_nat <$> seq (S a) m)).
  destruct (IH (S a) (log_sleep (Z.of_nat a + 1) (count_gemini_call w)))
    as (k' & Hk' & Hs' & Hlo' & Hhi' & Hone' & Hc' & Hn').
  assert (exists k,
    let w' := (retry_loop E client model_name prompt config max_retries
                 (Z.of_nat <$> seq (S a) m)
                 (log_sleep (Z.of_nat a + 1) (count_gemini_call w))).2 in
    (k <= S m)%nat
    /\ slept w' = (slept w ++ backoff a k)%list
    /\ (gemini_calls w + k <= gemini_calls w')%nat
    /\ (gemini_calls w' <= gemini_calls w + S m)%nat
    /\ (gemini_calls w' <= S (gemini_calls w + k))%nat
    /\ cache w' = cache w /\ net_log w' = net_log w) as Hcont.
  { exists (S k'). simpl in *. repeat split; try done; try lia.
    rewrite Hs'. unfold backoff. simpl. by rewrite <- app_assoc. }
  assert (exists k,
    let w' := count_gemini_call w in
    (k <= S m)%nat
    /\ slept w' = (slept w ++ backoff a k)%list
    /\ (gemini_calls w + k <= gemini_calls w')%nat
    /\ (gemini_calls w' <= gemini_calls w + S m)%nat
    /\ (gemini_calls w' <= S (gemini_calls w + k))%nat
    /\ cache w' = cache w /\ net_log w' = net_log w) as Hstop.
  { exists 0%nat. unfold backoff. simpl. rewrite app_nil_r.
    repeat split; lia. }
  assert (exists k,
    let w' := log_sleep (Z.of_nat a + 1) (count_gemini_call w) in
    (k <= S m)%nat
    /\ slept w' = (slept w ++ backoff a k)%list
    /\ (gemini_calls w + k <= gemini_calls w')%nat
    /\ (gemini_calls w' <= gemini_calls w + S m)%nat
    /\ (gemini_calls w' <= S (gemini_calls w + k))%nat
    /\ cache w' = cache w /\ net_log w' = net_log w) as Hlast.
  { exists 1%nat. unfold backoff. simpl. repeat split; lia. }
  simpl retry_loop.
  unfold mbind, M_bind, try_except, call_generate, raise, time_sleep,
    mret, M_ret.
  destruct (generate_content E (gemini_calls w) client model_name prompt config)
    as [[t|]|e]; simpl; [| done |].
  - destruct (negb (bool_decide (t = ""))); simpl; [|done].
    destruct (PyStr.str_in "Error processing request: 500 INTERNAL." t);
      simpl; [done|].
    by destruct (PyStr.str_in "503 UNAVAILABLE." t); simpl.
  - destruct (PyStr.any_in transient_codes (exn_str e)); simpl; [|done].
    by case_bool_decide; simpl.
Qed.

End RetryMore.

(** X7. The first attempt that is not transient decides the result: when
    the first [k] attempts are transient and attempt [k + 1] is not (with
    [k < max_retries]), [call_gemini_with_retry] returns the text of that
    attempt, or raises its error, after exactly [k + 1] calls and pauses of
    1, 2, ..., [k] seconds. *)
Theorem retry_first_settled_attempt_decides
    E client model_name prompt config max_retries (k : nat) w :
  Z.of_nat k < max_retries ->
  (forall i, (i < k)%nat ->
     transient_attempt
       (generate_content E (gemini_calls w + i) client model_name prompt config)
     = true) ->
  transient_attempt
    (generate_content E (gemini_calls w + k) client model_name prompt config)
  = false ->
  exists w',
    call_gemini_with_retry E client model_name prompt config max_retries w
      = (generate_content E (gemini_calls w + k) client model_name prompt config,
         w')
    /\ gemini_calls w' = S (gemini_calls w + k)
    /\ slept w' = (slept w ++ backoff 0 k)%list
    /\ cache w' = cache w /\ net_log w' = net_log w.
Proof.
  intros Hk Htr Hsettled. unfold call_gemini_with_retry, py_range.
  pose proof (retry_loop_recovers E client model_name prompt config
                (Z.to_nat max_retries) k 0 w ltac:(lia) Htr Hsettled) as Hrun.
  rewrite Z2Nat.id, Nat.sub_0_r in Hrun by lia. exact Hrun.
Qed.

(** X8. Whatever the upstream answers, [call_gemini_with_retry] calls it at
    most [max_retries] times; it pauses 1, 2, ..., [k] seconds for some
    [k <= max_retries], having made [k] or [k + 1] calls, and touches
    neither the cache nor the log of outbound calls. *)
Theorem retry_calls_bounded E client model_name prompt config max_retries w :
  exists k,
    (k <= Z.to_nat max_retries)%nat
    /\ slept (call_gemini_with_retry E client model_name prompt config
                max_retries w).2 = (slept w ++ backoff 0 k)%list
    /\ (gemini_calls w + k
        <= gemini_calls (call_gemini_with_retry E client model_name prompt
                           config max_retries w).2)%nat
    /\ (gemini_calls (call_gemini_with_retry E client model_name prompt config
                        max_retries w).2
        <= gemini_calls w + Z.to_nat max_retries)%nat
    /\ (gemini_calls (call_gemini_with_retry E client model_name prompt config
                        max_retries w).2
        <= S (gemini_calls w + k))%nat
    /\ cache (call_gemini_with_retry E client model_name prompt config
                max_retries w).2 = cache w
    /\ net_log (call_gemini_with_retry E client model_name prompt config
                  max_retries w).2 = net_log w.
Proof.
  unfold call_gemini_with_retry, py_range.
  apply (retry_loop_bounded E client model_name prompt config max_retries
           (Z.to_nat max_retries) 0 w).
Qed.

Lemma retry_first_settled_attempt_decides_witness :
  Z.of_nat 2 < 3
  /\ (forall i, (i < 2)%nat ->
        transient_attempt
          (generate_content flaky_env (gemini_calls empty_world + i)
             "k" "m" "p" ∅) = true)
  /\ transient_attempt
       (generate_content flaky_env (gemini_calls empty_world + 2) "k" "m" "p" ∅)
     = false
  /\ exists w',
       call_gemini_with_retry flaky_env "k" "m" "p" ∅ 3 empty_world
         = (Ret (Some "[]"), w')
       /\ gemini_calls w' = 3%nat
       /\ slept w' = [1; 2]
       /\ cache w' = cache empty_world /\ net_log w' = net_log empty_world.
Proof.
  assert (Z.of_nat 2 < 3) as H1 by lia.
  assert (forall i, (i < 2)%nat ->
            transient_attempt
              (generate_content flaky_env (gemini_calls empty_world + i)
                 "k" "m" "p" ∅) = true) as H2.
  { intros i Hi. destruct i as [|[|i]]; [reflexivity|reflexivity|lia]. }
  assert (transient_attempt
            (generate_content flaky_env (gemini_calls empty_world + 2)
               "k" "m" "p" ∅) = false) as H3 by reflexivity.
  split; [exact H1|split; [exact H2|split; [exact H3|]]].
  exact (retry_first_settled_attempt_decides flaky_env "k" "m" "p" ∅ 3 2
           empty_world H1 H2 H3).
Defined.

(** ** require_google_auth and cors_exempt *)

Section AuthMore.

Context (E : Env).

Lemma cors_exempt_run (view_func : View) request w :
  req_method request <> "OPTIONS" ->
  cors_exempt view_func request w
    = match view_func request w with
      | (Ret r, w') => (Ret (add_cors_headers r (get_cors_origin request)), w')
      | (Raise e, w') => (Raise e, w')
      end.
Proof.
  intros Hm. unfold cors_exempt. rewrite bool_decide_false by done.
  unfold mbind, M_bind. by destruct (view_func request w) as [[r|e] w'].
Qed.

(** [add_cors_headers] leaves every other header as it was. *)
Lemma add_cors_headers_other name r o :
  name ∉ CORS_HEADERS ->
  resp_headers (add_cors_headers r o) !! name = resp_headers r !! name.
Proof.
  intros Hname. destruct o as [o|]; [|done]. simpl.
  case_bool_decide; [done|]. simpl.
  rewrite !lookup_insert_ne; [done|..]; intros <-; apply Hname; compute_done.
Qed.

Lemma token_long_enough token : 20 <= PyStr.len token -> token <> "".
Proof. intros Hlen ->. vm_compute in Hlen. done. Qed.

(** The decorator on a token that Google does not verify. *)
Lemma require_google_auth_unverified view_func request token w w1 :
  req_method request <> "OPTIONS" ->
  req_headers request !! "Authorization" = Some ("Bearer " +:+ token) ->
  20 <= PyStr.len token ->
  verify_google_token E token w = (Ret None, w1) ->
  require_google_auth E view_func request w
    = (Ret (auth_error
         "Invalid or expired Google token. Please reconnect your calendar."),
       w1).
Proof.
  intros Hm Hauth Hlen Hverify. unfold require_google_auth.
  rewrite bool_decide_false by done.
  rewrite (header_get_some _ _ _ Hauth), bearer_startswith, bearer_slice.
  cbn [negb]. rewrite (bool_decide_false (token = ""))
    by by apply token_long_enough.
  rewrite (bool_decide_false (_ < _)) by lia. cbn [orb].
  unfold mbind at 1, M_bind at 1. by rewrite Hverify.
Qed.

(** The decorator on a verified token, up to the quota check. *)
Lemma require_google_auth_verified
    view_func request token userinfo user_id is_ambient w w1 :
  req_method request <> "OPTIONS" ->
  req_headers request !! "Authorization" = Some ("Bearer " +:+ token) ->
  20 <= PyStr.len token ->
  verify_google_token E token w = (Ret (Some userinfo), w1) ->
  userinfo !! "sub" = Some user_id ->
  (check_ambient_profile E (default "" (userinfo !! "email")) w1).1
    = Ret is_ambient ->
  require_google_auth E view_func request w
    = match check_rate_limit user_id is_ambient w1 with
      | (Ret (allowed, remaining, limit), w3) =>
          if negb allowed then
            (Ret (rate_limited_response is_ambient limit), w3)
          else
            match view_func (attach_user user_id is_ambient request) w3 with
            | (Ret response, w4) =>
                (Ret (with_rate_headers is_ambient remaining limit response), w4)
            | (Raise e, w4) => (Raise e, w4)
            end
      | (Raise e, w3) => (Raise e, w3)
      end.
Proof.
  intros Hm Hauth Hlen Hverify Hsub Hprofile.
  assert (userinfo <> ∅) as Hinfo by (intros ->; by rewrite lookup_empty in Hsub).
  pose proof (check_ambient_profile_world E
                (default "" (userinfo !! "email")) w1) as [Hw2 _].
  destruct (check_ambient_profile E (default "" (userinfo !! "email")) w1)
    as [o w2] eqn:Hp. simpl in *. subst o w2.
  unfold require_google_auth.
  rewrite bool_decide_false by done.
  rewrite (header_get_some _ _ _ Hauth), bearer_startswith, bearer_slice.
  cbn [negb]. rewrite (bool_decide_false (token = ""))
    by by apply token_long_enough.
  rewrite (bool_decide_false (_ < _)) by lia. cbn [orb].
  unfold mbind at 1, M_bind at 1. rewrite Hverify.
  cbn [falsy_userinfo]. rewrite (bool_decide_false (userinfo = ∅)) by done.
  cbn [default from_option id]. rewrite Hsub.
  unfold mbind at 1, M_bind at 1. unfold lift at 1.
  unfold mbind at 1, M_bind at 1. rewrite Hp.
  unfold mbind at 1, M_bind at 1.
  destruct (check_rate_limit user_id is_ambient w1)
    as [[[[allowed remaining] limit]|e] w3]; [|done].
  destruct allowed; cbn [negb]; [|done].
  unfold mbind, M_bind.
  by destruct (view_func (attach_user user_id is_ambient request) w3)
    as [[r|e] w4].
Qed.

Lemma business_endpoint_under_cors ep :
  business_endpoint ep ->
  exists body,
    under_cors E ep
      = require_google_auth E (require_http_methods ["POST"; "OPTIONS"] body)
    /\ (body = extract_event_body E \/ body = find_matches_body E).
Proof. intros [-> | ->]; eexists; split; try done; auto. Qed.

End AuthMore.

(** X9. A token that Google does not verify is answered 401 by the two
    business endpoints before anything else happens: the quota is not
    touched and the upstream is not called. *)
Theorem unverified_token_rejected E ep request token w :
  business_endpoint ep ->
  req_method request <> "OPTIONS" ->
  req_headers request !! "Authorization" = Some ("Bearer " +:+ token) ->
  20 <= PyStr.len token ->
  (verify_google_token E token w).1 = Ret None ->
  exists resp w',
    urlpatterns E ep request w = (Ret resp, w')
    /\ status_code resp = 401
    /\ body_field resp "success" = Some (JBool false)
    /\ body_field resp "error"
       = Some (JStr "Invalid or expired Google token. Please reconnect your calendar.")
    /\ cache w' = cache w
    /\ gemini_calls w' = gemini_calls w.
Proof.
  intros Hep Hm Hauth Hlen Hverify.
  destruct (verify_google_token_frame E token w)
    as (r & w1 & Hrun & Hc & _ & Hg & _).
  rewrite Hrun in Hverify. simpl in Hverify. simplify_eq.
  destruct (business_endpoint_under_cors E ep Hep) as (body & Hunder & _).
  exists (add_cors_headers
            (auth_error
               "Invalid or expired Google token. Please reconnect your calendar.")
            (get_cors_origin request)), w1.
  split.
  - rewrite urlpatterns_under_cors, cors_exempt_run, Hunder by done.
    by rewrite (require_google_auth_unverified E _ _ token w w1).
  - unfold body_field.
    by rewrite add_cors_headers_status, add_cors_headers_content.
Qed.

Lemma unverified_token_rejected_witness :
  business_endpoint ExtractEventUrl
  /\ req_method (sample_request "POST" sample_token "https://web.whatsapp.com")
     <> "OPTIONS"
  /\ req_headers (sample_request "POST" sample_token "https://web.whatsapp.com")
       !! "Authorization" = Some ("Bearer " +:+ sample_token)
  /\ 20 <= PyStr.len sample_token
  /\ (verify_google_token rejecting_env sample_token empty_world).1 = Ret None
  /\ exists resp w',
       urlpatterns rejecting_env ExtractEventUrl
         (sample_request "POST" sample_token "https://web.whatsapp.com")
         empty_world = (Ret resp, w')
       /\ status_code resp = 401
       /\ body_field resp "success" = Some (JBool false)
       /\ body_field resp "error"
          = Some (JStr "Invalid or expired Google token. Please reconnect your calendar.")
       /\ cache w' = cache empty_world
       /\ gemini_calls w' = gemini_calls empty_world.
Proof.
  assert (business_endpoint ExtractEventUrl) as H1 by (by left).
  assert (req_method
            (sample_request "POST" sample_token "https://web.whatsapp.com")
          <> "OPTIONS") as H2 by discriminate.
  assert (req_headers
            (sample_request "POST" sample_token "https://web.whatsapp.com")
            !! "Authorization" = Some ("Bearer " +:+ sample_token)) as H3
    by reflexivity.
  assert (20 <= PyStr.len sample_token) as H4 by (vm_compute; discriminate).
  assert ((verify_google_token rejecting_env sample_token empty_world).1
          = Ret None) as H5 by reflexivity.
  repeat (split; [assumption|]).
  exact (unverified_token_rejected rejecting_env ExtractEventUrl _ _ empty_world
           H1 H2 H3 H4 H5).
Defined.



(** X11. The quota is consumed before the body is looked at: a POST to a
    business endpoint with a verified token and a body that is not JSON is
    answered 400 "Invalid JSON", with the rate-limit headers, and the
    subject's counter has been incremented. *)
Theorem bad_json_consumes_quota
    E ep request token userinfo user_id is_ambient remaining limit e w w1 w3 :
  business_endpoint ep ->
  req_method request = "POST" ->
  req_headers request !! "Authorization" = Some ("Bearer " +:+ token) ->
  20 <= PyStr.len token ->
  verify_google_token E token w = (Ret (Some userinfo), w1) ->
  userinfo !! "sub" = Some user_id ->
  (check_ambient_profile E (default "" (userinfo !! "email")) w1).1
    = Ret is_ambient ->
  check_rate_limit user_id is_ambient w1 = (Ret (true, remaining, limit), w3) ->
  json_loads E (req_body request) = Raise e ->
  is_JSONDecodeError e = true ->
  exists resp,
    urlpatterns E ep request w = (Ret resp, w3)
    /\ status_code resp = 400
    /\ body_field resp "success" = Some (JBool false)
    /\ body_field resp "error" = Some (JStr ("Invalid JSON: " +:+ exn_str e))
    /\ resp_headers resp !! "X-RateLimit-Remaining" = Some (pretty remaining)
    /\ resp_headers resp !! "X-RateLimit-Limit" = Some (pretty limit)
    /\ cache w3 !! ratelimit_key user_id
       = Some (limit - remaining, now w1 + RATE_LIMIT_WINDOW)
    /\ gemini_calls w3 = gemini_calls w.
Proof.
  intros Hep Hpost Hauth Hlen Hverify Hsub Hprofile Hrate Hload Hjson.
  destruct (verify_google_token_upstream E _ _ _ _ Hverify) as [Hg1 _].
  destruct (check_rate_limit_upstream _ _ _ _ _ Hrate) as [Hg3 _].
  destruct (allowed_call_stores _ _ _ _ _ _ Hrate) as [Hstored _].
  assert (req_method request <> "OPTIONS") as Hm by (rewrite Hpost; done).
  assert (exists f,
    under_cors E ep request w
      = (Ret (with_rate_headers is_ambient remaining limit
                (JsonResponse
                   [ ("success", JBool false); (f, JNull);
                     ("error", JStr ("Invalid JSON: " +:+ exn_str e)) ] 400)),
         w3)
    /\ business_field f) as (f & Hrun & Hf).
  { destruct Hep as [-> | ->]; simpl under_cors;
      [exists "events"|exists "match_result"];
      (split; [|unfold business_field; auto]);
      rewrite (require_google_auth_verified E _ _ token userinfo user_id
                 is_ambient w w1) by done;
      rewrite Hrate; cbn [negb];
      unfold require_http_methods;
      rewrite bool_decide_true by (simpl; rewrite Hpost; compute_done);
      [unfold extract_event_body|unfold find_matches_body];
      unfold try_except at 1, parse_body, try_except_if, try_except,
        mbind, M_bind, lift, mret, M_ret;
      change (req_body (attach_user user_id is_ambient request))
        with (req_body request);
      rewrite Hload; simpl; rewrite Hjson; done. }
  eexists. split.
  - rewrite urlpatterns_under_cors, cors_exempt_run by done.
    rewrite Hrun. reflexivity.
  - unfold body_field.
    rewrite add_cors_headers_status, add_cors_headers_content.
    rewrite !add_cors_headers_other by compute_done.
    repeat split; try done; try congruence.
    all: destruct Hf as [-> | ->]; done.
Qed.

Lemma bad_json_consumes_quota_witness :
  business_endpoint ExtractEventUrl
  /\ req_method (sample_request "POST" sample_token "https://web.whatsapp.com")
     = "POST"
  /\ req_headers (sample_request "POST" sample_token "https://web.whatsapp.com")
       !! "Authorization" = Some ("Bearer " +:+ sample_token)
  /\ 20 <= PyStr.len sample_token
  /\ verify_google_token bad_json_env sample_token empty_world
     = (Ret (Some sample_userinfo), verified_world)
  /\ sample_userinfo !! "sub" = Some "u1"
  /\ (check_ambient_profile bad_json_env
        (default "" (sample_userinfo !! "email")) verified_world).1 = Ret false
  /\ check_rate_limit "u1" false verified_world
     = (Ret (true, 4, 5), allowed_world)
  /\ json_loads bad_json_env
       (req_body (sample_request "POST" sample_token "https://web.whatsapp.com"))
     = Raise (Exn JSONDecodeErrorC "Expecting value: line 1 column 1 (char 0)")
  /\ is_JSONDecodeError
       (Exn JSONDecodeErrorC "Expecting value: line 1 column 1 (char 0)") = true
  /\ exists resp,
       urlpatterns bad_json_env ExtractEventUrl
         (sample_request "POST" sample_token "https://web.whatsapp.com")
         empty_world = (Ret resp, allowed_world)
       /\ status_code resp = 400
       /\ body_field resp "success" = Some (JBool false)
       /\ body_field resp "error"
          = Some (JStr "Invalid JSON: Expecting value: line 1 column 1 (char 0)")
       /\ resp_headers resp !! "X-RateLimit-Remaining" = Some "4"
       /\ resp_headers resp !! "X-RateLimit-Limit" = Some "5"
       /\ cache allowed_world !! ratelimit_key "u1" = Some (1, 86400)
       /\ gemini_calls allowed_world = gemini_calls empty_world.
Proof.
  assert (business_endpoint ExtractEventUrl) as H1 by (by left).
  assert (req_method
            (sample_request "POST" sample_token "https://web.whatsapp.com")
          = "POST") as H2 by reflexivity.
  assert (req_headers
            (sample_request "POST" sample_token "https://web.whatsapp.com")
            !! "Authorization" = Some ("Bearer " +:+ sample_token)) as H3
    by reflexivity.
  assert (20 <= PyStr.len sample_token) as H4 by (vm_compute; discriminate).
  assert (verify_google_token bad_json_env sample_token empty_world
          = (Ret (Some sample_userinfo), verified_world)) as H5
    by (vm_compute; reflexivity).
  assert (sample_userinfo !! "sub" = Some "u1") as H6 by reflexivity.
  assert ((check_ambient_profile bad_json_env
             (default "" (sample_userinfo !! "email")) verified_world).1
          = Ret false) as H7 by reflexivity.
  assert (check_rate_limit "u1" false verified_world
          = (Ret (true, 4, 5), allowed_world)) as H8
    by (vm_compute; reflexivity).
  assert (json_loads bad_json_env
            (req_body
               (sample_request "POST" sample_token "https://web.whatsapp.com"))
          = Raise (Exn JSONDecodeErrorC
                     "Expecting value: line 1 column 1 (char 0)")) as H9
    by reflexivity.
  assert (is_JSONDecodeError
            (Exn JSONDecodeErrorC "Expecting value: line 1 column 1 (char 0)")
          = true) as H10 by reflexivity.
  repeat (split; [assumption|]).
  exact (bad_json_consumes_quota bad_json_env ExtractEventUrl _ _ _ _ _ _ _ _
           _ _ _ H1 H2 H3 H4 H5 H6 H7 H8 H9 H10).
Defined.

(** X12. Every endpoint answers an OPTIONS request with an empty 200,
    whatever the Authorization header and the body: no token is checked, no
    outbound call is made and no quota is consumed. *)
Theorem options_preflight E ep request w :
  req_method request = "OPTIONS" ->
  exists resp,
    urlpatterns E ep request w = (Ret resp, w)
    /\ status_code resp = 200
    /\ content resp = None.
Proof.
  intros Hopt. eexists. split.
  - rewrite urlpatterns_under_cors. unfold cors_exempt.
    rewrite bool_decide_true by done. reflexivity.
  - by rewrite add_cors_headers_status, add_cors_headers_content.
Qed.

Lemma options_preflight_witness :
  req_method (sample_request "OPTIONS" "" "https://web.whatsapp.com") = "OPTIONS"
  /\ exists resp,
       urlpatterns unavailable_env ExtractEventUrl
         (sample_request "OPTIONS" "" "https://web.whatsapp.com") exhausted_world
         = (Ret resp, exhausted_world)
       /\ status_code resp = 200
       /\ content resp = None.
Proof.
  assert (req_method (sample_request "OPTIONS" "" "https://web.whatsapp.com")
          = "OPTIONS") as H1 by reflexivity.
  split; [exact H1|].
  exact (options_preflight unavailable_env ExtractEventUrl _ exhausted_world H1).
Defined.

(** ** The views always answer, except check_profile *)

Section AlwaysReturns.

Context (E : Env).


Lemma always_returns_bind {A B} (m : M A) (f : A -> M B) (P : A -> Prop) :
  always_returns m -> returns m P ->
  (forall a, P a -> always_returns (f a)) ->
  always_returns (m ≫= f).
Proof.
  intros Hm HP Hf w. destruct (Hm w) as (a & w1 & Hrun).
  unfold mbind, M_bind. rewrite Hrun. apply Hf. by eapply HP.
Qed.









End AlwaysReturns.



(** ** Rate-limit headers *)

Section RateHeaders.

Context (E : Env).

Lemma check_rate_limit_answer user_id amb :
  returns (check_rate_limit user_id amb)
    (fun x => x.2 = rate_limit_of amb /\ (x.1.1 = true -> 0 <= x.1.2)).
Proof.
  intros w [[allowed remaining] limit] w'.
  unfold check_rate_limit, mbind, M_bind, mret, M_ret, cache_get, cache_set.
  destruct (cache w !! ratelimit_key user_id) as [[c e]|];
    repeat (case_bool_decide; simpl); intros Heq; simplify_eq; simpl;
    (split; [done|]); intros; try done; lia.
Qed.

Lemma rate_headers_limited amb :
  rate_headers (rate_limited_response amb (rate_limit_of amb)).
Proof. exists amb, 0. by destruct amb. Qed.

Lemma rate_headers_with amb remaining r :
  0 <= remaining ->
  rate_headers (with_rate_headers amb remaining (rate_limit_of amb) r).
Proof.
  intros Hrem. exists amb, remaining. split; [done|].
  unfold with_rate_headers. simpl.
  rewrite lookup_insert_eq.
  rewrite !(lookup_insert_ne _ "X-Ambient-User") by done.
  rewrite !lookup_insert_eq.
  rewrite (lookup_insert_ne _ "X-RateLimit-Limit") by done.
  by rewrite lookup_insert_eq.
Qed.

Lemma rate_headers_add_cors r o :
  rate_headers r -> rate_headers (add_cors_headers r o).
Proof.
  intros (amb & remaining & Hrem & H1 & H2 & H3).
  exists amb, remaining.
  by rewrite !add_cors_headers_other by compute_done.
Qed.

Lemma require_google_auth_rate_headers (view_func : View) request :
  req_method request <> "OPTIONS" ->
  returns (require_google_auth E view_func request)
    (fun r => status_code r = 401 \/ rate_headers r).
Proof.
  intros Hm. unfold require_google_auth.
  rewrite bool_decide_false by done.
  destruct (negb _); [apply returns_ret; by left|].
  destruct (_ || _); [apply returns_ret; by left|].
  apply returns_bind_any. intros userinfo.
  destruct (falsy_userinfo userinfo); [apply returns_ret; by left|].
  apply returns_bind_any. intros user_id.
  apply returns_bind_any. intros is_ambient.
  eapply returns_bind; [apply check_rate_limit_answer|].
  intros [[allowed remaining] limit] [Hlimit Hrem]. simpl in *. subst limit.
  destruct allowed; simpl.
  - apply returns_bind_any. intros r. apply returns_ret. right.
    apply rate_headers_with. by apply Hrem.
  - apply returns_ret. right. apply rate_headers_limited.
Qed.

End RateHeaders.

(** X14. Every answer of a business endpoint to a request other than
    OPTIONS either is a 401 or reports the quota: it carries
    [X-RateLimit-Remaining] (not negative), [X-RateLimit-Limit] and
    [X-Ambient-User], and the limit reported is that of the tier reported,
    10 for "true" and 5 for "false".  This holds for the 429, for the 405
    and for the 400 and 500 answers of the views as well as for
    successes. *)
Theorem quota_reported_after_auth E ep request w resp w' :
  business_endpoint ep ->
  req_method request <> "OPTIONS" ->
  urlpatterns E ep request w = (Ret resp, w') ->
  status_code resp <> 401 ->
  rate_headers resp.
Proof.
  intros Hep Hm Hrun Hstatus.
  destruct (business_endpoint_under_cors E ep Hep) as (body & Hunder & _).
  rewrite urlpatterns_under_cors, cors_exempt_run, Hunder in Hrun by done.
  destruct (require_google_auth E _ request w) as [[r|e] w1] eqn:Hauth;
    [|done].
  simplify_eq.
  rewrite add_cors_headers_status in Hstatus.
  apply rate_headers_add_cors.
  by destruct (require_google_auth_rate_headers E _ request Hm _ _ _ Hauth).
Qed.

Lemma quota_reported_after_auth_witness :
  business_endpoint ExtractEventUrl
  /\ req_method (sample_request "GET" sample_token "https://web.whatsapp.com")
     <> "OPTIONS"
  /\ urlpatterns unavailable_env ExtractEventUrl
       (sample_request "GET" sample_token "https://web.whatsapp.com")
       empty_world
     = (Ret (add_cors_headers
               (with_rate_headers false 4 5
                  (HttpResponseNotAllowed ["POST"; "OPTIONS"]))
               (Some "https://web.whatsapp.com")), allowed_world)
  /\ status_code (add_cors_headers
                    (with_rate_headers false 4 5
                       (HttpResponseNotAllowed ["POST"; "OPTIONS"]))
                    (Some "https://web.whatsapp.com")) <> 401
  /\ rate_headers (add_cors_headers
                     (with_rate_headers false 4 5
                        (HttpResponseNotAllowed ["POST"; "OPTIONS"]))
                     (Some "https://web.whatsapp.com")).
Proof.
  assert (business_endpoint ExtractEventUrl) as H1 by (by left).
  assert (req_method
            (sample_request "GET" sample_token "https://web.whatsapp.com")
          <> "OPTIONS") as H2 by discriminate.
  assert (urlpatterns unavailable_env ExtractEventUrl
            (sample_request "GET" sample_token "https://web.whatsapp.com")
            empty_world
          = (Ret (add_cors_headers
                    (with_rate_headers false 4 5
                       (HttpResponseNotAllowed ["POST"; "OPTIONS"]))
                    (Some "https://web.whatsapp.com")), allowed_world)) as H3
    by (vm_compute; reflexivity).
  assert (status_code (add_cors_headers
                         (with_rate_headers false 4 5
                            (HttpResponseNotAllowed ["POST"; "OPTIONS"]))
                         (Some "https://web.whatsapp.com")) <> 401) as H4
    by discriminate.
  repeat (split; [assumption|]).
  exact (quota_reported_after_auth unavailable_env ExtractEventUrl _ _ _ _
           H1 H2 H3 H4).
Defined.

(** ** health_check and check_profile *)

(** X15. [health_check] answers a GET with 200 and status "ok" without
    looking at any header, and reports the API as configured exactly when
    the settings hold a key that is not empty; it changes nothing. *)
Theorem health_check_reports E request w :
  req_method request = "GET" ->
  exists resp configured,
    health_check E request w = (Ret resp, w)
    /\ status_code resp = 200
    /\ body_field resp "status" = Some (JStr "ok")
    /\ body_field resp "api_configured" = Some (JBool configured)
    /\ (configured = true
        <-> exists key, settings_DEFAULT_API_KEY E = Some key /\ key <> "").
Proof.
  intros Hget.
  exists (add_cors_headers
            (JsonResponse [ ("status", JStr "ok");
                            ("api_configured", JBool (api_configured E)) ] 200)
            (get_cors_origin request)), (api_configured E).
  split.
  - unfold health_check, csrf_exempt.
    rewrite cors_exempt_run by (rewrite Hget; done).
    unfold require_http_methods.
    by rewrite bool_decide_true by (rewrite Hget; compute_done).
  - unfold body_field.
    rewrite add_cors_headers_status, add_cors_headers_content.
    repeat split; try done.
    + unfold api_configured.
      destruct (settings_DEFAULT_API_KEY E) as [k|]; [|done].
      case_bool_decide; [done|]. intros _. by exists k.
    + intros (k & Hk & Hne). unfold api_configured. rewrite Hk.
      by rewrite bool_decide_false.
Qed.

Lemma health_check_reports_witness :
  req_method (sample_request "GET" "" "") = "GET"
  /\ exists resp configured,
       health_check unavailable_env (sample_request "GET" "" "") empty_world
         = (Ret resp, empty_world)
       /\ status_code resp = 200
       /\ body_field resp "status" = Some (JStr "ok")
       /\ body_field resp "api_configured" = Some (JBool configured)
       /\ (configured = true
           <-> exists key,
                 settings_DEFAULT_API_KEY unavailable_env = Some key
                 /\ key <> "").
Proof.
  assert (req_method (sample_request "GET" "" "") = "GET") as H1 by reflexivity.
  split; [exact H1|].
  exact (health_check_reports unavailable_env _ empty_world H1).
Defined.

(** Closes a branch in which the run has ended in a world that differs
    from the first one by the outbound log only. *)
Ltac same_world :=
  let Heq := fresh "Heq" in
  intros Heq; unfold mret, M_ret in Heq; simplify_eq; simpl;
  repeat split; congruence.

(** X16. [check_profile] never counts against the quota: whatever the
    request and however the call ends, the cache is as it was, the
    upstream has not been called and nothing has been slept. *)
Theorem check_profile_keeps_quota E request w :
  cache (check_profile E request w).2 = cache w
  /\ gemini_calls (check_profile E request w).2 = gemini_calls w
  /\ slept (check_profile E request w).2 = slept w.
Proof.
  destruct (check_profile E request w) as [o w'] eqn:Hrun0. simpl.
  revert Hrun0. unfold check_profile, csrf_exempt, cors_exempt.
  case_bool_decide; [same_world|].
  unfold mbind at 1, M_bind at 1. unfold require_http_methods.
  case_bool_decide; [|same_world].
  unfold check_profile_body.
  case_bool_decide; [same_world|].
  destruct (negb _); [same_world|].
  destruct (_ || _); [same_world|].
  destruct (verify_google_token_frame E
              (PyStr.slice_from 7 (header_get request "Authorization")) w)
    as (r & w1 & Hrun & Hc & _ & Hg & Hs & _).
  unfold mbind at 1, M_bind at 1. rewrite Hrun.
  destruct (falsy_userinfo r); [same_world|].
  unfold mbind at 1, M_bind at 1. unfold lift at 1.
  destruct (mask_email _) as [masked|e]; [|same_world].
  pose proof (check_ambient_profile_world E
                (default "" (default ∅ r !! "email")) w1) as [Hw2 [b Hb]].
  unfold mbind at 1, M_bind at 1.
  destruct (check_ambient_profile E _ w1) as [o2 w2]. simpl in *. subst.
  same_world.
Qed.

(** ** extract_event and find_matches past validation *)

Section Business.

Context (E : Env).

Lemma api_configured_key :
  api_configured E = true ->
  exists key, settings_DEFAULT_API_KEY E = Some key /\ get_api_key E = mret key.
Proof.
  unfold api_configured, get_api_key.
  destruct (settings_DEFAULT_API_KEY E) as [k|]; [|done].
  case_bool_decide; [done|]. intros _. by exists k.
Qed.




(** [find_matches] up to the API key, on a valid request with at least one
    calendar candidate whose prompt can be built. *)
Lemma find_matches_body_prompt
    request data err event candidate candidates prompt w :
  json_loads E (req_body request) = Ret data ->
  Validators.validate_match_request data = (true, err) ->
  py_getitem data "event" = Ret event ->
  py_getitem data "calendar_events" = Ret (JList (candidate :: candidates)) ->
  generate_event_match_instructions E event (JList (candidate :: candidates))
    = Ret prompt ->
  find_matches_body E request w
    = try_except
        (api_key ← get_api_key E;
         response_text ←
           call_gemini_with_retry E api_key DEFAULT_MODEL prompt json_config 3;
         match_result ← parse_ai_response E "match_result" response_text;
         match match_result with
         | inl response => mret response
         | inr match_result =>
             is_ambient ← lift (get_is_ambient_user request);
             mret (JsonResponse [ ("success", JBool true);
                                  ("match_result", match_result);
                                  ("error", JNull);
                                  ("is_ambient_user", JBool is_ambient) ] 200)
         end)
        (view_handlers "match_result") w.
Proof.
  intros Hload Hvalid Hev Hcal Hprompt.
  unfold find_matches_body, parse_body, try_except_if, try_except,
    mbind, M_bind, lift, mret, M_ret.
  rewrite Hload. cbv beta iota. rewrite Hvalid. cbv beta iota. cbn [negb].
  rewrite Hev. cbv beta iota. rewrite Hcal. cbv beta iota.
  cbn [py_len length].
  rewrite bool_decide_false by lia.
  rewrite Hprompt. reflexivity.
Qed.

End Business.



(** X19. When the upstream call of a match request ends in an error, the
    answer is 500 with a null [match_result]: the message of the error is
    passed through, behind "Internal error: " unless the error is a
    [ValueError], which the view takes for a configuration error. *)
Theorem find_matches_upstream_error
    E request data err event candidate candidates prompt key e w w' :
  json_loads E (req_body request) = Ret data ->
  Validators.validate_match_request data = (true, err) ->
  py_getitem data "event" = Ret event ->
  py_getitem data "calendar_events" = Ret (JList (candidate :: candidates)) ->
  generate_event_match_instructions E event (JList (candidate :: candidates))
    = Ret prompt ->
  settings_DEFAULT_API_KEY E = Some key ->
  key <> "" ->
  call_gemini_with_retry E key DEFAULT_MODEL prompt json_config 3 w
    = (Raise e, w') ->
  find_matches_body E request w
    = (Ret (JsonResponse
              [ ("success", JBool false); ("match_result", JNull);
                ("error", JStr (if is_ValueError e then exn_str e
                                else "Internal error: " +:+ exn_str e)) ]
              500), w').
Proof.
  intros Hload Hvalid Hev Hcal Hprompt Hkey Hne Hcall.
  rewrite (find_matches_body_prompt E request data err event candidate
             candidates prompt w) by done.
  unfold get_api_key. rewrite Hkey, (bool_decide_false (key = "")) by done.
  unfold try_except, mbind at 1, M_bind at 1. unfold mret at 1, M_ret at 1.
  unfold mbind at 1, M_bind at 1. rewrite Hcall.
  unfold view_handlers. by destruct (is_ValueError e).
Qed.



Lemma find_matches_upstream_error_witness :
  json_loads
    (business_env one_candidate_match_data (Some "api-key")
       (fun _ => Raise (Exn ExceptionC "503 Service Unavailable")) JNull)
    (req_body (sample_request "POST" sample_token ""))
  = Ret one_candidate_match_data
  /\ Validators.validate_match_request one_candidate_match_data = (true, None)
  /\ py_getitem one_candidate_match_data "event" = Ret sample_event
  /\ py_getitem one_candidate_match_data "calendar_events"
     = Ret (JList [JDict (<["id" := JStr "e1"]> ∅)])
  /\ generate_event_match_instructions
       (business_env one_candidate_match_data (Some "api-key")
          (fun _ => Raise (Exn ExceptionC "503 Service Unavailable")) JNull)
       sample_event (JList [JDict (<["id" := JStr "e1"]> ∅)])
     = Ret "match instructions"
  /\ settings_DEFAULT_API_KEY
       (business_env one_candidate_match_data (Some "api-key")
          (fun _ => Raise (Exn ExceptionC "503 Service Unavailable")) JNull)
     = Some "api-key"
  /\ "api-key" <> ""
  /\ call_gemini_with_retry
       (business_env one_candidate_match_data (Some "api-key")
          (fun _ => Raise (Exn ExceptionC "503 Service Unavailable")) JNull)
       "api-key" DEFAULT_MODEL "match instructions" json_config 3 empty_world
     = (Raise (Exn ExceptionC
                 "Gemini API error after 3 attempts: 503 Service Unavailable"),
        exhausted_upstream_world)
  /\ find_matches_body
       (business_env one_candidate_match_data (Some "api-key")
          (fun _ => Raise (Exn ExceptionC "503 Service Unavailable")) JNull)
       (sample_request "POST" sample_token "") empty_world
     = (Ret (JsonResponse
               [ ("success", JBool false); ("match_result", JNull);
                 ("error", JStr "Internal error: Gemini API error after 3 attempts: 503 Service Unavailable") ]
               500), exhausted_upstream_world).
Proof.
  set (E := business_env one_candidate_match_data (Some "api-key")
              (fun _ => Raise (Exn ExceptionC "503 Service Unavailable")) JNull).
  assert (json_loads E (req_body (sample_request "POST" sample_token ""))
          = Ret one_candidate_match_data) as H1 by reflexivity.
  assert (Validators.validate_match_request one_candidate_match_data
          = (true, None)) as H2 by (vm_compute; reflexivity).
  assert (py_getitem one_candidate_match_data "event" = Ret sample_event)
    as H3 by (vm_compute; reflexivity).
  assert (py_getitem one_candidate_match_data "calendar_events"
          = Ret (JList [JDict (<["id" := JStr "e1"]> ∅)])) as H4
    by (vm_compute; reflexivity).
  assert (generate_event_match_instructions E sample_event
            (JList [JDict (<["id" := JStr "e1"]> ∅)])
          = Ret "match instructions") as H5 by reflexivity.
  assert (settings_DEFAULT_API_KEY E = Some "api-key") as H6 by reflexivity.
  assert ("api-key" <> "") as H7 by discriminate.
  assert (call_gemini_with_retry E "api-key" DEFAULT_MODEL "match instructions"
            json_config 3 empty_world
          = (Raise (Exn ExceptionC
                      "Gemini API error after 3 attempts: 503 Service Unavailable"),
             exhausted_upstream_world)) as H8 by (vm_compute; reflexivity).
  repeat (split; [assumption|]).
  exact (find_matches_upstream_error E _ _ _ _ _ _ _ _ _ empty_world _
           H1 H2 H3 H4 H5 H6 H7 H8).
Defined.

(** ** validators.py *)

Module ValidatorShapes.
Import Validators Shapes.

#[local] Arguments validate_match_request : simpl nomatch.
#[local] Arguments validate_extract_request : simpl nomatch.

Lemma wellformed_invalid msg : wellformed (invalid msg).
Proof. right. by exists msg. Qed.

Lemma wellformed_valid : wellformed valid.
Proof. by left. Qed.

#[local] Hint Resolve wellformed_invalid wellformed_valid : core.

Lemma wellformed_pair b o :
  wellformed (b, o) -> (b = true /\ o = None) \/ (b = false /\ exists msg, o = Some msg).
Proof.
  intros [Heq|[msg Heq]]; unfold valid, invalid in Heq; simplify_eq; eauto.
Qed.

Lemma validate_messages_wellformed messages :
  forall idx, wellformed (validate_messages idx messages).
Proof.
  induction messages as [|m rest IH]; intros idx; simpl; [auto|].
  repeat case_match; auto.
Qed.

Lemma validate_participants_wellformed ps :
  forall idx, wellformed (validate_participants idx ps).
Proof.
  induction ps as [|p rest IH]; intros idx; simpl; [auto|].
  repeat case_match; auto.
Qed.

Lemma validate_date_fields_wellformed m fields :
  wellformed (validate_date_fields m fields).
Proof.
  induction fields as [|f rest IH]; simpl; [auto|].
  repeat case_match; auto.
Qed.

Lemma validate_conversation_wellformed data :
  wellformed (validate_conversation data).
Proof.
  unfold validate_conversation.
  repeat case_match; subst; auto using validate_participants_wellformed;
    match goal with
    | Hv : validate_messages 0 ?l = _ |- _ =>
        pose proof (validate_messages_wellformed l 0) as Hm; rewrite Hv in Hm
    end;
    apply wellformed_pair in Hm as [[? ?]|[_ [msg ->]]];
    [done|exact (wellformed_invalid msg)].
Qed.

Lemma validate_extracted_event_wellformed data :
  wellformed (validate_extracted_event data).
Proof.
  unfold validate_extracted_event.
  repeat case_match; auto using validate_date_fields_wellformed.
Qed.

Lemma validate_calendar_event_wellformed data :
  wellformed (validate_calendar_event data).
Proof.
  unfold validate_calendar_event.
  repeat case_match; auto using validate_date_fields_wellformed.
Qed.

Lemma validate_calendar_events_wellformed events :
  forall idx, wellformed (validate_calendar_events idx events).
Proof.
  induction events as [|ev rest IH]; intros idx; simpl; [auto|].
  repeat case_match; auto.
Qed.

Lemma validate_match_request_wellformed data :
  wellformed (validate_match_request data).
Proof.
  unfold validate_match_request.
  repeat case_match; auto using validate_calendar_events_wellformed.
Qed.

Lemma validate_extract_request_wellformed data :
  wellformed (validate_extract_request data).
Proof.
  unfold validate_extract_request.
  repeat case_match; auto.
Qed.

Lemma validate_file_extract_request_wellformed data :
  wellformed (validate_file_extract_request data).
Proof.
  unfold validate_file_extract_request.
  repeat case_match; auto.
Qed.

End ValidatorShapes.

(** X20. Each of the six validators answers either [(True, None)] or
    [(False, message)]: an acceptance never carries a message and a
    refusal always does, whatever JSON value it is given. *)
Theorem validators_verdicts_wellformed data :
  Shapes.wellformed (Validators.validate_conversation data)
  /\ Shapes.wellformed (Validators.validate_extracted_event data)
  /\ Shapes.wellformed (Validators.validate_calendar_event data)
  /\ Shapes.wellformed (Validators.validate_match_request data)
  /\ Shapes.wellformed (Validators.validate_extract_request data)
  /\ Shapes.wellformed (validate_file_extract_request data).
Proof.
  repeat split.
  - apply ValidatorShapes.validate_conversation_wellformed.
  - apply ValidatorShapes.validate_extracted_event_wellformed.
  - apply ValidatorShapes.validate_calendar_event_wellformed.
  - apply ValidatorShapes.validate_match_request_wellformed.
  - apply ValidatorShapes.validate_extract_request_wellformed.
  - apply ValidatorShapes.validate_file_extract_request_wellformed.
Qed.

Module ValidatorAccepts.
Import Validators Shapes.

Lemma key_check m key :
  has_key m key && is_str (dict_get m key) = str_field m key.
Proof.
  unfold has_key, dict_get, str_field.
  destruct (m !! key) as [[]|]; simpl; try done;
    by rewrite bool_decide_true by by eexists.
Qed.

Lemma validate_messages_accepts messages : forall idx,
  (validate_messages idx messages).1 = forallb message_ok messages.
Proof.
  induction messages as [|message rest IH]; intros idx; [done|].
  simpl. destruct message as [| | | | | |m]; try done.
  unfold message_ok. rewrite <- !key_check.
  destruct (has_key m "date"), (has_key m "sender"), (has_key m "text"),
    (is_str (dict_get m "date")), (is_str (dict_get m "sender")),
    (is_str (dict_get m "text")); simpl; first [done | apply IH].
Qed.

Lemma validate_participants_accepts ps : forall idx,
  (validate_participants idx ps).1 = forallb is_str ps.
Proof.
  induction ps as [|p rest IH]; intros idx; [done|].
  simpl. destruct (is_str p); simpl; [apply IH|done].
Qed.

Lemma validate_date_fields_accepts m :
  (validate_date_fields m ["start"; "end"]).1
    = date_field_ok m "start" && date_field_ok m "end".
Proof.
  unfold date_field_ok. simpl.
  destruct (m !! "start") as [[]|]; simpl; try done;
    by destruct (m !! "end") as [[]|].
Qed.

Lemma validate_conversation_accepts data :
  (validate_conversation data).1 = conversation_ok data.
Proof.
  destruct data as [| | | | | |m]; try done.
  unfold validate_conversation, conversation_ok.
  rewrite <- key_check.
  destruct (has_key m "title"); simpl; [|done].
  destruct (is_str (dict_get m "title")); simpl; [|done].
  unfold has_key, dict_get, participants_ok.
  destruct (m !! "structured_messages") as [structured|]; simpl; [|done].
  simpl. destruct structured as [| | | | |messages|]; try done.
  pose proof (validate_messages_accepts messages 0) as Hm.
  destruct (validate_messages 0 messages) as [[] err]; simpl in *;
    rewrite <- Hm; simpl; [|done].
  destruct (m !! "participants") as [[]|]; simpl; try done.
  apply validate_participants_accepts.
Qed.

Lemma validate_extracted_event_accepts data :
  (validate_extracted_event data).1 = event_ok data.
Proof.
  destruct data as [| | | | | |m]; try done.
  unfold validate_extracted_event, event_ok, has_key, dict_get, event_type_ok.
  destruct (m !! "event_type") as [event_type|]; simpl; [|done].
  simpl. destruct event_type as [| | | |t| |]; simpl; try done.
  destruct (bool_decide (t ∈ valid_event_types)); simpl; [|done].
  destruct (bool_decide (is_Some (m !! "summary"))); simpl; [|done].
  apply validate_date_fields_accepts.
Qed.

Lemma validate_calendar_event_accepts data :
  (validate_calendar_event data).1 = calendar_event_ok data.
Proof.
  destruct data as [| | | | | |m]; try done.
  apply validate_date_fields_accepts.
Qed.

Lemma validate_calendar_events_accepts events : forall idx,
  (validate_calendar_events idx events).1 = forallb calendar_event_ok events.
Proof.
  induction events as [|ev rest IH]; intros idx; [done|].
  simpl. rewrite <- validate_calendar_event_accepts.
  destruct (validate_calendar_event ev) as [[] err]; simpl; [apply IH|done].
Qed.

Lemma validate_match_request_accepts data :
  (validate_match_request data).1 = match_request_ok data.
Proof.
  destruct data as [| | | | | |m]; try done.
  unfold validate_match_request, match_request_ok, has_key, dict_get.
  destruct (m !! "event") as [event|]; simpl; [|done].
  simpl.
  destruct (m !! "calendar_events") as [calendar|]; simpl; [|done].
  simpl. destruct calendar as [| | | | |events|]; try done.
  rewrite <- validate_extracted_event_accepts.
  destruct (validate_extracted_event event) as [[] err]; simpl; [|done].
  apply validate_calendar_events_accepts.
Qed.

(** ** [strip] leaves nothing exactly of a blank string *)






End ValidatorAccepts.

(** X21. [validate_conversation] accepts exactly the documented shape: an
    object with a string [title], a list [structured_messages] whose
    elements are objects with string [date], [sender] and [text], and, when
    [participants] is present, a list of strings. *)
Theorem validate_conversation_accepts_shape data :
  (Validators.validate_conversation data).1 = Shapes.conversation_ok data.
Proof. apply ValidatorAccepts.validate_conversation_accepts. Qed.

(** X22. [validate_match_request] accepts exactly an object with an [event]
    that is an object with one of the four event types, a [summary] and
    [start] and [end] each absent, null or an object, and a list
    [calendar_events] of objects whose [start] and [end] are each absent,
    null or an object; an empty list of calendar events is accepted. *)
Theorem validate_match_request_accepts_shape data :
  (Validators.validate_match_request data).1 = Shapes.match_request_ok data.
Proof. apply ValidatorAccepts.validate_match_request_accepts. Qed.


Module ValidatorMessages.
Import Validators Shapes.

(** The loop over the calendar events stops at the first one that is
    refused and names its position. *)
Lemma validate_calendar_events_first_bad good bad rest msg : forall idx,
  forallb calendar_event_ok good = true ->
  validate_calendar_event bad = (false, Some msg) ->
  validate_calendar_events idx (good ++ bad :: rest)
    = invalid ("Invalid calendar_event at index "
               +:+ pretty (idx + length good)%nat +:+ ": " +:+ msg).
Proof.
  induction good as [|ev good IH]; intros idx Hgood Hbad.
  - simpl. rewrite Hbad. simpl. by rewrite Nat.add_0_r.
  - simpl in Hgood. apply andb_true_iff in Hgood as [Hev Hgood].
    rewrite <- ValidatorAccepts.validate_calendar_event_accepts in Hev.
    simpl. destruct (validate_calendar_event ev) as [[] err]; [|done].
    rewrite IH by done. simpl. by rewrite Nat.add_succ_r.
Qed.

End ValidatorMessages.

(** X24. When the event of a match request is valid and a calendar event is
    not, the message of [validate_match_request] names the position,
    counted from 0, of the first calendar event that is refused, followed
    by the reason of that refusal. *)
Theorem match_request_names_first_bad_calendar_event
    m event good bad rest msg :
  m !! "event" = Some event ->
  Shapes.event_ok event = true ->
  m !! "calendar_events" = Some (JList (good ++ bad :: rest)) ->
  forallb Shapes.calendar_event_ok good = true ->
  Validators.validate_calendar_event bad = (false, Some msg) ->
  Validators.validate_match_request (JDict m)
    = (false, Some ("Invalid calendar_event at index "
                    +:+ pretty (length good) +:+ ": " +:+ msg)).
Proof.
  intros Hev Hok Hcal Hgood Hbad.
  unfold Validators.validate_match_request, Validators.has_key,
    Validators.dict_get.
  rewrite Hev, Hcal. simpl.
  rewrite <- ValidatorAccepts.validate_extracted_event_accepts in Hok.
  destruct (Validators.validate_extracted_event event) as [[] err]; [|done].
  by rewrite (ValidatorMessages.validate_calendar_events_first_bad
                good bad rest msg 0).
Qed.

Lemma match_request_names_first_bad_calendar_event_witness :
  (<["event" := sample_event]>
     (<["calendar_events" :=
          JList ([JDict ∅; JDict (<["start" := JNull]> ∅)]
                 ++ JDict (<["end" := JStr "tomorrow"]> ∅) :: [JInt 3])]> ∅)
   : gmap string json) !! "event" = Some sample_event
  /\ Shapes.event_ok sample_event = true
  /\ (<["event" := sample_event]>
        (<["calendar_events" :=
             JList ([JDict ∅; JDict (<["start" := JNull]> ∅)]
                    ++ JDict (<["end" := JStr "tomorrow"]> ∅) :: [JInt 3])]> ∅)
      : gmap string json) !! "calendar_events"
     = Some (JList ([JDict ∅; JDict (<["start" := JNull]> ∅)]
                    ++ JDict (<["end" := JStr "tomorrow"]> ∅) :: [JInt 3]))
  /\ forallb Shapes.calendar_event_ok [JDict ∅; JDict (<["start" := JNull]> ∅)]
     = true
  /\ Validators.validate_calendar_event (JDict (<["end" := JStr "tomorrow"]> ∅))
     = (false, Some "Field 'end' must be an object")
  /\ Validators.validate_match_request
       (JDict (<["event" := sample_event]>
                 (<["calendar_events" :=
                      JList ([JDict ∅; JDict (<["start" := JNull]> ∅)]
                             ++ JDict (<["end" := JStr "tomorrow"]> ∅)
                                :: [JInt 3])]> ∅)))
     = (false,
        Some "Invalid calendar_event at index 2: Field 'end' must be an object").
Proof.
  set (good := [JDict ∅; JDict (<["start" := JNull]> ∅)]).
  set (bad := JDict (<["end" := JStr "tomorrow"]> ∅)).
  set (m := (<["event" := sample_event]>
               (<["calendar_events" := JList (good ++ bad :: [JInt 3])]> ∅)
             : gmap string json)).
  assert (m !! "event" = Some sample_event) as H1 by (vm_compute; reflexivity).
  assert (Shapes.event_ok sample_event = true) as H2
    by (vm_compute; reflexivity).
  assert (m !! "calendar_events" = Some (JList (good ++ bad :: [JInt 3])))
    as H3 by (vm_compute; reflexivity).
  assert (forallb Shapes.calendar_event_ok good = true) as H4
    by (vm_compute; reflexivity).
  assert (Validators.validate_calendar_event bad
          = (false, Some "Field 'end' must be an object")) as H5
    by (vm_compute; reflexivity).
  repeat (split; [assumption|]).
  exact (match_request_names_first_bad_calendar_event m sample_event good bad
           [JInt 3] _ H1 H2 H3 H4 H5).
Defined.


